(** * FastAPI_Tutorial.py: a shallow embedding of the tutorial's snippets

    The repository is one Python file holding a tutorial; its code lives in
    stand-alone snippets.  Every snippet that a property below talks about is
    transcribed here as a Rocq definition under the name it has in the
    source, one module per snippet.  Python dictionaries are finite maps
    ([gmap]), exceptions are values of an inductive type carried by a
    [result], mutable dictionaries that are passed by reference live in an
    explicit heap, and the unbounded input loop is run with fuel.

    Part I holds the definitions, Part II the properties. *)

From Stdlib Require Import ZArith String Ascii List Lia.
From stdpp Require Import base gmap strings list fin_maps pretty countable.

Local Open Scope string_scope.
Local Open Scope Z_scope.

(* ===================================================================== *)
(** * Part I: definitions                                                 *)
(* ===================================================================== *)

(** ** Python values, exceptions and results *)

Module Py.

(** The Python values the snippets store in dictionaries.  A [datetime]
    is the number of seconds since the epoch, a [timedelta] a number of
    seconds. *)
Inductive value :=
| VNone
| VBool (b : bool)
| VInt (n : Z)
| VStr (s : string)
| VDatetime (t : Z).

#[global] Instance value_eq_dec : EqDecision value.
Proof. solve_decision. Defined.

Abbreviation dict := (gmap string value).

(** The exception classes the snippets raise or catch by name. *)
Inductive exn :=
| HTTPException (status_code : Z) (detail : string)
| KeyError (key : string)
| ValueError
| EOFError
| MyCustomError (msg : string).

#[global] Instance exn_eq_dec : EqDecision exn.
Proof. solve_decision. Defined.

(** A call either returns or raises; [E] is the type of what it raises. *)
Inductive result (E A : Type) :=
| Return (a : A)
| Raise (e : E).
Arguments Return {E A} a.
Arguments Raise {E A} e.

Definition bind {E A B} (m : result E A) (k : A -> result E B) : result E B :=
  match m with
  | Return a => k a
  | Raise e => Raise e
  end.

(** [d[k]]: a missing key raises [KeyError]. *)
Definition getitem (d : dict) (k : string) : result exn value :=
  match d !! k with
  | Some v => Return v
  | None => Raise (KeyError k)
  end.

(** [bool(x)] for the result of [db.get(k)]: [None] and the empty
    dictionary are falsy, every other dictionary is truthy. *)
Definition truthy (o : option dict) : bool :=
  match o with
  | None => false
  | Some d => negb (bool_decide (d = ∅))
  end.

(** [try: body except c1: h1 except c2: h2 ...]: the first clause whose
    class test accepts the raised exception handles it; an exception no
    clause accepts propagates. *)
Section TryExcept.
Context {E A : Type}.

Definition clause : Type := (E -> bool) * (E -> result E A).

Fixpoint dispatch (e : E) (clauses : list clause) : result E A :=
    match clauses with
    | [] => Raise e
    | (accepts, handler) :: rest =>
        if accepts e then handler e else dispatch e rest
    end.

Definition try_except (body : result E A) (clauses : list clause) : result E A :=
    match body with
    | Return a => Return a
    | Raise e => dispatch e clauses
    end.
End TryExcept.

End Py.

Import Py.

Notation "x <- m ;; k" := (Py.bind m (fun x => k))
  (at level 100, m at next level, right associativity, only parsing).

(** ** Section 3 and section 13: the first application and its test *)

Module FirstApp.


(** What [TestClient] hands back: the status code and the decoded JSON
    body. *)
Record response := { status_code : Z; json : dict }.



End FirstApp.

(** ** Sections 5, 7 and the token models: the Pydantic records *)

Module Models.

Inductive annotation := Str | Float.

(** One field of a [BaseModel] class: its name, its annotation and its
    default ([None] here: the field is required; [Some v]: it defaults to
    [v]). *)
Record field := {
  field_name : string;
  field_type : annotation;
  field_default : option value
}.

Definition required (name : string) (ty : annotation) : field :=
  {| field_name := name; field_type := ty; field_default := None |}.

Definition optional (name : string) (ty : annotation) (v : value) : field :=
  {| field_name := name; field_type := ty; field_default := Some v |}.

(** [class Item(BaseModel)] of section 5 (lines 112-116). *)
Definition Item : list field :=
  [ required "name" Str;
    optional "description" Str VNone;
    required "price" Float;
    optional "tax" Float VNone ].

(** [class Item(BaseModel)] of section 7 (lines 150-154): the same
    fields, all required. *)
Definition Item_validated : list field :=
  [ required "name" Str;
    required "description" Str;
    required "price" Float;
    required "tax" Float ].

(** [class Token(BaseModel)] (lines 405-407, and again 456-458). *)
Definition Token : list field :=
  [ required "access_token" Str;
    required "token_type" Str ].

Definition field_names (model : list field) : list string :=
  map field_name model.

End Models.

(** ** The mock user databases of the two first authentication snippets *)

Module BasicAuth.

(** [fake_users_db] of the HTTP Basic example (lines 338-343). *)
Definition fake_users_db : gmap string dict :=
  {[ "admin" := {[ "username" := VStr "admin"; "password" := VStr "secret" ]} ]}.

End BasicAuth.

Module OAuth2.

(** [fake_users_db] of the OAuth2 example (lines 389-395). *)
Definition fake_users_db : gmap string dict :=
  {[ "user1" := {[ "username" := VStr "user1";
                   "password" := VStr "password123";
                   "full_name" := VStr "John Doe" ]} ]}.

End OAuth2.

(** ** The JWT example (lines 442-497) *)

(** The [jwt] module the snippet imports is not part of the repository.  It
    is an interface here: the two functions and the two exception classes the
    snippet names, over the library's own type of raised errors. *)
Module jwt.

(** A decoded claim: [null], a boolean, an integer or a string; any other
    JSON value (a float, an array, an object) is [JOther], kept with the text
    Python's [str] prints for it. *)
Inductive json :=
| JNull
| JBool (b : bool)
| JInt (n : Z)
| JStr (s : string)
| JOther (text : string).

#[global] Instance json_eq_dec : EqDecision json.
Proof. solve_decision. Defined.

Abbreviation payload := (gmap string json).

(** The JSON form of a claim: a [datetime] is sent as its integer
    timestamp. *)
Definition json_of_value (v : value) : json :=
  match v with
  | VNone => JNull
  | VBool b => JBool b
  | VInt n => JInt n
  | VStr s => JStr s
  | VDatetime t => JInt t
  end.

(** [encode claims key algorithm] is [jwt.encode]; [decode token key
    algorithms now] is [jwt.decode] called when the clock reads [now];
    [ExpiredSignatureError e] and [JWTError e] are the tests
    [isinstance(e, jwt.ExpiredSignatureError)] and
    [isinstance(e, jwt.JWTError)]. *)
Class Library := {
  error : Type;
  ExpiredSignatureError : error -> bool;
  JWTError : error -> bool;
  encode : dict -> string -> string -> string;
  decode : string -> string -> list string -> Z -> result error payload
}.


(** A token decodes, with the key and the algorithm it was made with and
    before its [exp] time, to the claims it was made from. *)
Definition decode_encode `{Library} : Prop :=
  forall (claims : dict) key algorithm expire now,
    claims !! "exp" = Some (VDatetime expire) ->
    (forall k t, claims !! k = Some (VDatetime t) -> k = "exp") ->
    now < expire ->
    decode (encode claims key algorithm) key [algorithm] now
    = Return (json_of_value <$> claims).

End jwt.

Module JwtAuth.

(** Dictionaries are objects: a variable holds a reference into the heap. *)
Abbreviation heap := (gmap positive dict).

Section WithLibrary.
Context `{jwt.Library}.

(** What a route of this snippet can raise: a Python or framework exception,
    or one of the library's. *)
Inductive raised :=
| Python (e : exn)
| FromJwt (e : jwt.error).

Definition M (A : Type) : Type := heap -> result raised A * heap.

Definition ret {A} (a : A) : M A := fun h => (Return a, h).

Definition raise {A} (e : exn) : M A := fun h => (Raise (Python e), h).

Definition bindM {A B} (m : M A) (k : A -> M B) : M B :=
  fun h =>
    match m h with
    | (Return a, h') => k a h'
    | (Raise e, h') => (Raise e, h')
    end.

Definition lift {A} (r : result exn A) : M A :=
  fun h =>
    (match r with
     | Return a => Return a
     | Raise e => Raise (Python e)
     end, h).

(** A dictionary display [{...}]: a new object. *)
Definition new_dict (d : dict) : M positive :=
  fun h => let l := fresh (dom h) in (Return l, <[l := d]> h).

(** The dictionary a reference points to.  A reference that Python hands
    out always points to an object; for any other the empty dictionary is
    read. *)
Definition deref (l : positive) : M dict :=
  fun h => (Return (default ∅ (h !! l)), h).

(** [d.copy()]: a new object with the entries of [d]. *)
Definition dict_copy (l : positive) : M positive :=
  bindM (deref l) new_dict.

(** [d.update(other)]: the entries of [other] are written into the object
    [d], over those it has under the same keys. *)
Definition dict_update (l : positive) (other : dict) : M unit :=
  fun h => (Return tt, <[l := other ∪ default ∅ (h !! l)]> h).

Local Notation "x <~ m ;; k" := (bindM m (fun x => k))
  (at level 100, m at next level, right associativity, only parsing).

Definition SECRET_KEY : string := "mysecretkey".

(** [timedelta(minutes=n)], in seconds. *)
Definition timedelta_minutes (n : Z) : Z := 60 * n.

(** [create_jwt_token] (lines 460-465); [utcnow] is what
    [datetime.utcnow()] reads. *)
Definition create_jwt_token (utcnow : Z) (data : positive) (expires_delta : Z) : M string :=
  to_encode <~ dict_copy data ;;
  let expire := utcnow + expires_delta in
  _ <~ dict_update to_encode {[ "exp" := VDatetime expire ]} ;;
  claims <~ deref to_encode ;;
  let encoded_jwt := jwt.encode claims SECRET_KEY "HS256" in
  ret encoded_jwt.

(** [fake_users_db] of the JWT example (lines 468-473). *)
Definition fake_users_db : gmap string dict :=
  {[ "admin" := {[ "username" := VStr "admin"; "password" := VStr "secret" ]} ]}.

(** [not user or user["password"] != password], left to right. *)
Definition rejects (user : option dict) (password : string) : result exn bool :=
  if negb (truthy user) then Return true
  else
    stored <- getitem (default ∅ user) "password" ;;
    Return (negb (bool_decide (stored = VStr password))).

(** [login_for_access_token] (lines 476-483). *)
Definition login_for_access_token (utcnow : Z) (username password : string) : M dict :=
  let user := fake_users_db !! username in
  rejected <~ lift (rejects user password) ;;
  if (rejected : bool) then raise (HTTPException 400 "Invalid credentials")
  else
    let access_token_expires := timedelta_minutes 30 in
    data <~ new_dict {[ "sub" := VStr username ]} ;;
    access_token <~ create_jwt_token utcnow data access_token_expires ;;
    ret {[ "access_token" := VStr access_token; "token_type" := VStr "bearer" ]}.

(** [str(x)] as an f-string prints a decoded claim. *)
Definition py_str (j : jwt.json) : string :=
  match j with
  | jwt.JNull => "None"
  | jwt.JBool true => "True"
  | jwt.JBool false => "False"
  | jwt.JInt n => pretty n
  | jwt.JStr s => s
  | jwt.JOther text => text
  end.

(** [payload.get("sub")]: [None] when the key is absent. *)
Definition payload_get (payload : jwt.payload) (k : string) : jwt.json :=
  default jwt.JNull (payload !! k).

Definition except_ExpiredSignatureError (e : raised) : bool :=
  match e with
  | FromJwt e => jwt.ExpiredSignatureError e
  | Python _ => false
  end.

Definition except_JWTError (e : raised) : bool :=
  match e with
  | FromJwt e => jwt.JWTError e
  | Python _ => false
  end.

Definition decode_token (token : string) (now : Z) : result raised jwt.payload :=
  match jwt.decode token SECRET_KEY ["HS256"] now with
  | Return p => Return p
  | Raise e => Raise (FromJwt e)
  end.

(** [read_protected] (lines 486-497); [now] is the clock when the request
    is served. *)
Definition read_protected (now : Z) (token : string) : result raised dict :=
  try_except
    (payload <- decode_token token now ;;
     let username := payload_get payload "sub" in
     if bool_decide (username = jwt.JNull)
     then Raise (Python (HTTPException 401 "Invalid token"))
     else Return {[ "message" :=
                      VStr ("Hello " +:+ py_str username +:+ ", you're authenticated!") ]})
    [ (except_ExpiredSignatureError,
        fun _ => Raise (Python (HTTPException 401 "Token has expired")));
      (except_JWTError,
        fun _ => Raise (Python (HTTPException 401 "Invalid token"))) ].

End WithLibrary.

End JwtAuth.

(** ** The role-based authorization example (lines 516-544) *)

Module RoleAuth.

(** [fake_users_db] with roles (lines 520-523). *)
Definition fake_users_db : gmap string dict :=
  {[ "admin" := {[ "username" := VStr "admin";
                   "password" := VStr "admin";
                   "role" := VStr "admin" ]};
     "user" := {[ "username" := VStr "user";
                  "password" := VStr "user";
                  "role" := VStr "user" ]} ]}.

(** [get_current_user] (lines 525-529). *)
Definition get_current_user (username : string) : result exn dict :=
  let user := fake_users_db !! username in
  if negb (truthy user)
  then Raise (HTTPException 400 "Invalid credentials")
  else Return (default ∅ user).

(** The closure [role_dependency] of [check_role] (lines 532-535);
    [required_role] is the variable it captures and [user] what the framework
    resolved for [Depends(get_current_user)]. *)
Definition role_dependency (required_role : string) (user : dict) : result exn dict :=
  role <- getitem user "role" ;;
  if negb (bool_decide (role = VStr required_role))
  then Raise (HTTPException 403 "You do not have permission to access this resource")
  else Return user.

(** [check_role] (lines 531-536) returns that closure. *)
Definition check_role (required_role : string) : dict -> result exn dict :=
  role_dependency required_role.

(** [Depends(check_role(required_role))]: the framework calls
    [get_current_user] with the request's [username] and hands its result to
    the closure. *)
Definition resolve (required_role : string) (username : string) : result exn dict :=
  user <- get_current_user username ;;
  check_role required_role user.

End RoleAuth.

(** ** Section 8: the database session dependency (lines 170-175) *)

Module Dependency.

(** What can be observed of a run: sessions being opened and closed. *)
Inductive event :=
| Connected (db : nat)
| Closed (db : nat).

#[global] Instance event_eq_dec : EqDecision event.
Proof. solve_decision. Defined.

Abbreviation log := (list event).

(** A computation appends to the log and returns or raises. *)
Definition IO (A : Type) : Type := log -> result exn A * log.

(** How a suspended generator is resumed: [next(gen)], or [gen.throw(e)]
    when the code using the yielded value raised [e]. *)
Inductive resumption :=
| Next
| Throw (e : exn).

(** A generator suspended at its [yield]: the value it yielded and what it
    does when resumed. *)
Record suspended (A : Type) := {
  yielded : A;
  resume : resumption -> IO unit
}.
Arguments yielded {A} s.
Arguments resume {A} s r.

(** [try: body finally: cleanup]: [cleanup] runs after [body] whatever
    [body] did; the outcome is [body]'s unless [cleanup] raises. *)
Definition try_finally {A} (body : IO A) (cleanup : IO unit) : IO A :=
  fun l =>
    let '(r, l1) := body l in
    let '(c, l2) := cleanup l1 in
    (match c with
     | Return _ => r
     | Raise e => Raise e
     end, l2).

Section GetDb.

(** [connect_to_database] is not defined in the repository: it opens some
    session, or raises. *)
Variable connect_to_database : IO nat.

(** What [db.close()] answers after it closed the session. *)
Variable close_outcome : nat -> result exn unit.

Definition close (db : nat) : IO unit :=
  fun l => (close_outcome db, (l ++ [Closed db])%list).

(** The statement [yield db], seen from inside the generator once it is
    resumed. *)
Definition after_yield (r : resumption) : IO unit :=
  fun l =>
    (match r with
     | Next => Return tt
     | Throw e => Raise e
     end, l).

(** [get_db] (lines 170-175), run up to its [yield]. *)
Definition get_db : IO (suspended nat) :=
  fun l =>
    match connect_to_database l with
    | (Return db, l1) =>
        (Return {| yielded := db;
                   resume := fun r => try_finally (after_yield r) (close db) |}, l1)
    | (Raise e, l1) => (Raise e, l1)
    end.

(** [Depends(dependency)] around a path operation: the generator is run to
    its [yield], the operation gets the yielded value, and the generator is
    resumed with [next] when the operation returned and with [throw] when it
    raised. *)
Definition Depends {A B} (dependency : IO (suspended A)) (operation : A -> IO B) : IO B :=
  fun l =>
    match dependency l with
    | (Raise e, l1) => (Raise e, l1)
    | (Return gen, l1) =>
        match operation (yielded gen) l1 with
        | (Return b, l2) =>
            let '(c, l3) := resume gen Next l2 in
            (match c with
             | Return _ => Return b
             | Raise e => Raise e
             end, l3)
        | (Raise e, l2) =>
            let '(c, l3) := resume gen (Throw e) l2 in
            (match c with
             | Return _ => Raise e
             | Raise e' => Raise e'
             end, l3)
        end
    end.

End GetDb.

(** How often [db.close()] was called on the session [db]. *)
Definition close_calls (db : nat) (l : log) : nat :=
  length (filter (fun ev => ev = Closed db) l).

End Dependency.

(** ** Error handling in Python (lines 895-913) *)

Module ErrorHandling.

(** [check_value] (lines 898-900): returning [None] is [Return tt]. *)
Definition check_value (x : Z) : result exn unit :=
  if x <? 0 then Raise (MyCustomError "Negative value not allowed!")
  else Return tt.

(** The [try]/[except MyCustomError as e] around [check_value(x)] (lines
    902-905): the lines it prints. *)
Definition report (x : Z) : result exn (list string) :=
  try_except
    (_ <- check_value x ;; @Return exn _ [])
    [ (fun e => match e with MyCustomError _ => true | _ => false end,
       fun e => match e with
                | MyCustomError msg => Return ["Custom Error: " +:+ msg]
                | _ => Raise e
                end) ].

(** What the terminal shows: the prompt [input] writes and the lines
    [print] writes. *)
Inductive output :=
| Prompt (s : string)
| Print (s : string).

#[global] Instance output_eq_dec : EqDecision output.
Proof. solve_decision. Defined.

(** The console: how many lines were read so far and what was written. *)
Record console := { consumed : nat; written : list output }.

(** Where one turn of the [while True] loop leaves it. *)
Inductive turn :=
| Continue (c : console)
| Break (num : Z) (c : console)
| Propagate (e : exn) (c : console).

Section RetryLoop.

(** [int(s)]: the integer [s] denotes, or [None] for [ValueError]. *)
Variable int : string -> option Z.

(** The lines the user types: [stdin n] is the line read by the [n]-th call
    of [input], [None] at the end of the input. *)
Variable stdin : nat -> option string.

(** The loop body (lines 909-913). *)
Definition retry_body (c : console) : turn :=
  let prompted := (written c ++ [Prompt "Enter a number: "])%list in
  match stdin (consumed c) with
  | None => Propagate EOFError {| consumed := consumed c; written := prompted |}
  | Some line =>
      let c' := {| consumed := S (consumed c); written := prompted |} in
      match int line with
      | Some num => Break num c'
      | None =>
          Continue {| consumed := consumed c';
                      written := (written c' ++ [Print "Invalid input. Please try again."])%list |}
      end
  end.

(** [while True: ...] (line 908), for at most [fuel] turns; [None] when the
    loop is still running after them. *)
Fixpoint retry_loop (fuel : nat) (c : console) : option (result exn Z * console) :=
  match fuel with
  | O => None
  | S fuel' =>
      match retry_body c with
      | Continue c' => retry_loop fuel' c'
      | Break num c' => Some (Return num, c')
      | Propagate e c' => Some (Raise e, c')
      end
  end.

End RetryLoop.

Definition start : console := {| consumed := 0; written := [] |}.

(** What is on the terminal when the loop leaves at its [k]-th line. *)
Definition transcript (k : nat) : list output :=
  (concat (replicate k [Prompt "Enter a number: "; Print "Invalid input. Please try again."])
   ++ [Prompt "Enter a number: "])%list.


(** A reading of [int] on plain decimal numerals, for the examples. *)
Fixpoint digits (s : string) (acc : Z) : option Z :=
  match s with
  | EmptyString => Some acc
  | String a rest =>
      let n := Z.of_nat (nat_of_ascii a) - 48 in
      if (0 <=? n) && (n <=? 9) then digits rest (10 * acc + n) else None
  end.

Definition int_decimal (s : string) : option Z :=
  match s with
  | EmptyString => None
  | String "-" (String a rest) => Z.opp <$> digits (String a rest) 0
  | _ => digits s 0
  end.

End ErrorHandling.

(** ** A small implementation of the [jwt] interface

    Tokens are not signed here: a token is the key, the algorithm and the
    JSON claims written as one string of binary digits.  It serves as the
    concrete library of the examples. *)

Module PlainJwt.

Inductive plain_error :=
| Expired
| Invalid.

(** A positive number as a string of binary digits, and back. *)
Fixpoint digits_of (p : positive) : string :=
  match p with
  | xH => EmptyString
  | xO q => String "0" (digits_of q)
  | xI q => String "1" (digits_of q)
  end.

Fixpoint of_digits (s : string) : option positive :=
  match s with
  | EmptyString => Some xH
  | String a rest =>
      if Ascii.eqb a "0" then xO <$> of_digits rest
      else if Ascii.eqb a "1" then xI <$> of_digits rest
      else None
  end.

Definition json_to_sum (j : jwt.json) : unit + bool + Z + string + string :=
  match j with
  | jwt.JNull => inl (inl (inl (inl tt)))
  | jwt.JBool b => inl (inl (inl (inr b)))
  | jwt.JInt n => inl (inl (inr n))
  | jwt.JStr s => inl (inr s)
  | jwt.JOther text => inr text
  end.

Definition json_of_sum (x : unit + bool + Z + string + string) : jwt.json :=
  match x with
  | inl (inl (inl (inl _))) => jwt.JNull
  | inl (inl (inl (inr b))) => jwt.JBool b
  | inl (inl (inr n)) => jwt.JInt n
  | inl (inr s) => jwt.JStr s
  | inr text => jwt.JOther text
  end.

#[global] Program Instance json_countable : Countable jwt.json :=
  inj_countable' json_to_sum json_of_sum _.
Next Obligation. by intros []. Qed.

Definition plain_encode (claims : dict) (key algorithm : string) : string :=
  digits_of (encode (key, algorithm, jwt.json_of_value <$> claims)).

Definition parse (token : string) : option (string * string * jwt.payload) :=
  of_digits token ≫= decode.

Definition plain_decode (token key : string) (algorithms : list string) (now : Z)
  : result plain_error jwt.payload :=
  match parse token with
  | Some (k, algorithm, claims) =>
      if bool_decide (k = key) && bool_decide (algorithm ∈ algorithms)
      then match claims !! "exp" with
           | Some (jwt.JInt expire) =>
               if expire <=? now then Raise Expired else Return claims
           | _ => Return claims
           end
      else Raise Invalid
  | None => Raise Invalid
  end.

#[global] Instance library : jwt.Library := {|
  jwt.error := plain_error;
  jwt.ExpiredSignatureError e := match e with Expired => true | Invalid => false end;
  jwt.JWTError _ := true;
  jwt.encode := plain_encode;
  jwt.decode := plain_decode
|}.

End PlainJwt.


(** ** The vocabulary of the properties *)

(** The four mock user databases of the tutorial, in the order of the
    text. *)
Definition mock_user_databases : list (gmap string dict) :=
  [ BasicAuth.fake_users_db;
    OAuth2.fake_users_db;
    JwtAuth.fake_users_db;
    RoleAuth.fake_users_db ].

(** A user record holds its own name and a password, both strings. *)
Definition has_credentials (name : string) (user : dict) : Prop :=
  user !! "username" = Some (VStr name)
  /\ exists password, user !! "password" = Some (VStr password).

(** The claims [create_jwt_token] signs for [data]: those of [data] and the
    expiry time. *)
Definition signed_claims (utcnow expires_delta : Z) (data : dict) : dict :=
  <[ "exp" := VDatetime (utcnow + expires_delta) ]> data.

(** The stored password of [username] is the supplied one. *)
Definition password_matches (username password : string) : Prop :=
  exists user,
    JwtAuth.fake_users_db !! username = Some user
    /\ user !! "password" = Some (VStr password).

(** The token [login_for_access_token] issues for [username] at [utcnow]:
    the subject and an expiry time thirty minutes ahead. *)
Definition issued_token `{jwt.Library} (utcnow : Z) (username : string) : string :=
  jwt.encode {[ "sub" := VStr username; "exp" := VDatetime (utcnow + 1800) ]}
    JwtAuth.SECRET_KEY "HS256".


(** The [n]-th line is there and is not a number. *)
Definition invalid_line (int : string -> option Z) (stdin : nat -> option string)
    (n : nat) : Prop :=
  exists line, stdin n = Some line /\ int line = None.

(** The user types "abc", an empty line and then "12". *)
Definition typed (n : nat) : option string :=
  match n with
  | 0%nat => Some "abc"
  | 1%nat => Some ""
  | 2%nat => Some "12"
  | _ => None
  end.

(** ** Further snippets of the tutorial *)

(** *** HTTP Basic authentication (lines 214-227 and 331-358) *)

Module HttpBasic.

(** [HTTPBasicCredentials]: what the framework read from the
    [Authorization] header. *)
Record HTTPBasicCredentials := { username : string; password : string }.

(** What the routes raise: [HTTPException] with its [headers], or a Python
    exception. *)
Inductive raised :=
| HTTPException (status_code : Z) (detail : string) (headers : gmap string string)
| Python (e : exn).

Definition HTTP_401_UNAUTHORIZED : Z := 401.

Definition lift {A} (r : result exn A) : result raised A :=
  match r with
  | Return a => Return a
  | Raise e => Raise (Python e)
  end.

End HttpBasic.

Module BasicAuthSection10.

(** [read_protected] of section 10 (lines 219-227). *)
Definition read_protected (credentials : HttpBasic.HTTPBasicCredentials)
  : result HttpBasic.raised dict :=
  if negb (bool_decide (HttpBasic.username credentials = "admin"))
     || negb (bool_decide (HttpBasic.password credentials = "secret"))
  then Raise (HttpBasic.HTTPException HttpBasic.HTTP_401_UNAUTHORIZED
                "Incorrect credentials" {[ "WWW-Authenticate" := "Basic" ]})
  else Return {[ "message" := VStr "Welcome, admin!" ]}.

End BasicAuthSection10.

Module BasicAuthRoutes.

(** [authenticate_user] (lines 346-354), over [BasicAuth.fake_users_db]. *)
Definition authenticate_user (credentials : HttpBasic.HTTPBasicCredentials)
  : result HttpBasic.raised string :=
  let user := BasicAuth.fake_users_db !! HttpBasic.username credentials in
  rejected <- HttpBasic.lift (JwtAuth.rejects user (HttpBasic.password credentials)) ;;
  if (rejected : bool)
  then Raise (HttpBasic.HTTPException HttpBasic.HTTP_401_UNAUTHORIZED
                "Invalid credentials" {[ "WWW-Authenticate" := "Basic" ]})
  else Return (HttpBasic.username credentials).

(** [read_protected] (lines 356-358), given what the dependency returned. *)
Definition read_protected (username : string) : dict :=
  {[ "message" := VStr ("Hello, " +:+ username +:+ ", you're authenticated!") ]}.

(** A request to [/protected/]: [Depends(authenticate_user)] first. *)
Definition protected_route (credentials : HttpBasic.HTTPBasicCredentials)
  : result HttpBasic.raised dict :=
  username <- authenticate_user credentials ;;
  Return (read_protected username).

End BasicAuthRoutes.

(** *** The OAuth2 example (lines 380-419) *)

Module OAuth2Routes.

(** What the body of [login_for_access_token] reads off [form_data]. *)
Record form := { username : string; password : string }.

(** [get_user] (lines 398-402). *)
Definition get_user (username : string) : option dict :=
  let user := OAuth2.fake_users_db !! username in
  if truthy user then user else None.

(** [login_for_access_token] (lines 410-414). *)
Definition login_for_access_token (form_data : form) : result exn dict :=
  let user := get_user (username form_data) in
  rejected <- JwtAuth.rejects user (password form_data) ;;
  if (rejected : bool) then Raise (HTTPException 400 "Invalid credentials")
  else Return {[ "access_token" := VStr "mock_token_123"; "token_type" := VStr "bearer" ]}.

(** [read_users_me] (lines 417-419). *)
Definition read_users_me (token : string) : dict :=
  {[ "username" := VStr "user1"; "full_name" := VStr "John Doe" ]}.

End OAuth2Routes.

(** *** The routes of the role-based example (lines 538-544) *)

Module RoleRoutes.

Section Routes.

(** The text [str] prints for a [datetime]. *)
Variable str_datetime : Z -> string.

(** [str(v)], as an f-string prints a value. *)
Definition str (v : value) : string :=
  match v with
  | VNone => "None"
  | VBool true => "True"
  | VBool false => "False"
  | VInt n => pretty n
  | VStr s => s
  | VDatetime t => str_datetime t
  end.

(** [read_admin_data] (lines 538-540), given the resolved [user]. *)
Definition read_admin_data (user : dict) : result exn dict :=
  name <- getitem user "username" ;;
  Return {[ "message" :=
              VStr ("Hello " +:+ str name +:+ ", you have access to admin data.") ]}.

(** [read_user_data] (lines 542-544). *)
Definition read_user_data (user : dict) : result exn dict :=
  name <- getitem user "username" ;;
  Return {[ "message" :=
              VStr ("Hello " +:+ str name +:+ ", you have access to user data.") ]}.

(** A request to [/admin/] and one to [/user/] for [username]. *)
Definition admin_route (username : string) : result exn dict :=
  user <- RoleAuth.resolve "admin" username ;;
  read_admin_data user.

Definition user_route (username : string) : result exn dict :=
  user <- RoleAuth.resolve "user" username ;;
  read_user_data user.

End Routes.

End RoleRoutes.

(** *** Background tasks (lines 196-205) *)

Module Notifications.

(** The files on disk: the text of each. *)
Abbreviation files := (gmap string string).

(** A queued background task. *)
Definition task : Type := files -> files.

(** [write_log] (lines 198-200): opening with mode "a" creates the file when
    it is missing and writes at its end. *)
Definition write_log (message : string) : task :=
  fun fs => <[ "log.txt" := default "" (fs !! "log.txt") +:+ message ]> fs.

(** [send_notification] (lines 202-205): [background_tasks.add_task] queues
    the call. *)
Definition send_notification (background_tasks : list task) (message : string)
  : dict * list task :=
  let background_tasks := (background_tasks ++ [write_log message])%list in
  ({[ "message" := VStr "Notification sent" ]}, background_tasks).

(** The framework runs the queued tasks, in order, once the response is
    made. *)
Definition run_tasks (tasks : list task) (fs : files) : files :=
  foldl (fun fs t => t fs) fs tasks.

(** One request to [/send-notification/]. *)
Definition serve (message : string) (fs : files) : dict * files :=
  let '(response, tasks) := send_notification [] message in
  (response, run_tasks tasks fs).

(** Requests served one after the other. *)
Fixpoint serve_all (messages : list string) (fs : files) : list dict * files :=
  match messages with
  | [] => ([], fs)
  | message :: rest =>
      let '(response, fs1) := serve message fs in
      let '(responses, fs2) := serve_all rest fs1 in
      (response :: responses, fs2)
  end.

End Notifications.

(** *** Middleware and the exception handler (lines 621-647) *)

Module Middleware.

Record request := { url : string }.

Record response := { status_code : Z; content : dict }.

(** What handles a request: it prints lines and returns a response or
    raises. *)
Definition handler : Type :=
  request -> list string -> result exn response * list string.

(** [log_requests] (lines 623-628) around [call_next]. *)
Definition log_requests (call_next : handler) : handler :=
  fun request out =>
    let out1 := (out ++ ["Request URL: " +:+ url request])%list in
    match call_next request out1 with
    | (Return response, out2) =>
        (Return response,
         (out2 ++ ["Response Status Code: " +:+ pretty (status_code response)])%list)
    | (Raise e, out2) => (Raise e, out2)
    end.

(** [http_exception_handler] (lines 642-647), given the [status_code] and
    the [detail] of the exception. *)
Definition http_exception_handler (status : Z) (detail : string) : response :=
  {| status_code := status;
     content := {[ "message" := VStr ("Oops! Error: " +:+ detail) ]} |}.

(** The answer to a request whose path operation did [r], with the handler
    installed: a returned dictionary is the body of a 200 answer, an
    [HTTPException] goes to the handler, any other exception is not
    handled. *)
Definition answer (r : result exn dict) : result exn response :=
  match r with
  | Return body => Return {| status_code := 200; content := body |}
  | Raise (HTTPException status detail) => Return (http_exception_handler status detail)
  | Raise e => Raise e
  end.

End Middleware.

(** *** The user route over the database session (lines 597-602) *)

Module UserRoutes.

Section Routes.

(** [db.query(User).filter(User.id == user_id).first()]: the library's
    answer, a row or [None]. *)
Variable first_user : nat -> Z -> Dependency.IO (option dict).

(** [read_user] (lines 597-602), given the session [db]. *)
Definition read_user (user_id : Z) (db : nat) : Dependency.IO dict :=
  fun l =>
    match first_user db user_id l with
    | (Return (Some user), l1) => (Return user, l1)
    | (Return None, l1) => (Raise (HTTPException 404 "User not found"), l1)
    | (Raise e, l1) => (Raise e, l1)
    end.

End Routes.

End UserRoutes.

(** *** The [try] examples of the error-handling part (lines 844-891) *)

Module TryExamples.

Inductive error :=
| ValueError
| ZeroDivisionError
| AssertionError
| FileNotFoundError
| EOFError
| OtherError (name : string).

#[global] Instance error_eq_dec : EqDecision error.
Proof. solve_decision. Defined.

(** What a run does to the outside. *)
Inductive effect :=
| Prompted (s : string)
| Printed (s : string)
| Opened (path : string)
| Closed (path : string).

#[global] Instance effect_eq_dec : EqDecision effect.
Proof. solve_decision. Defined.

Abbreviation trace := (list effect).

Definition Run (A : Type) : Type := trace -> result error A * trace.

Definition ret {A} (a : A) : Run A := fun t => (Return a, t).

Definition raise {A} (e : error) : Run A := fun t => (Raise e, t).

Definition bindR {A B} (m : Run A) (k : A -> Run B) : Run B :=
  fun t =>
    match m t with
    | (Return a, t1) => k a t1
    | (Raise e, t1) => (Raise e, t1)
    end.

Definition emit (e : effect) : Run unit := fun t => (Return tt, (t ++ [e])%list).

Local Notation "x <~ m ;; k" := (bindR m (fun x => k))
  (at level 100, m at next level, right associativity, only parsing).

Definition print (s : string) : Run unit := emit (Printed s).

(** [input(prompt)]: [typed] is the line the user types, [None] at the end
    of the input. *)
Definition input (typed : option string) (prompt : string) : Run string :=
  _ <~ emit (Prompted prompt) ;;
  match typed with
  | Some line => ret line
  | None => raise EOFError
  end.

(** [int(s)] for a reading [int] of numerals. *)
Definition to_int (int : string -> option Z) (s : string) : Run Z :=
  match int s with
  | Some n => ret n
  | None => raise ValueError
  end.

(** [try: body except ...: ... else: orelse]: the [else] block runs when
    [body] raised nothing, outside the reach of the clauses. *)
Fixpoint handle {A} (e : error) (clauses : list ((error -> bool) * Run A)) : Run A :=
  match clauses with
  | [] => raise e
  | (accepts, handler) :: rest => if accepts e then handler else handle e rest
  end.

Definition try_except_else {A B} (body : Run A)
    (clauses : list ((error -> bool) * Run B)) (orelse : A -> Run B) : Run B :=
  fun t =>
    match body t with
    | (Return a, t1) => orelse a t1
    | (Raise e, t1) => handle e clauses t1
    end.

(** [try: body finally: final]. *)
Definition try_finally {A} (body : Run A) (final : Run unit) : Run A :=
  fun t =>
    let '(r, t1) := body t in
    let '(c, t2) := final t1 in
    (match c with
     | Return _ => r
     | Raise e => Raise e
     end, t2).

Definition except (class : error) (e : error) : bool := bool_decide (e = class).

Section Examples.

Variable int : string -> option Z.

(** The text [str] prints for the float [10 / x]. *)
Variable str_quotient : Z -> string.


(** Example 2 (lines 853-860). *)
Definition division_example (typed : option string) : Run unit :=
  try_except_else
    (line <~ input typed "Enter a number: " ;;
     x <~ to_int int line ;;
     y <~ (if x =? 0 then raise ZeroDivisionError else ret (str_quotient x)) ;;
     print ("Result: " +:+ y))
    [ (except ValueError, print "Please enter a valid integer.");
      (except ZeroDivisionError, print "Cannot divide by zero!") ]
    ret.

(** The [else] and [finally] example (lines 868-878); [assert] as Python
    runs it without [-O]. *)
Definition positive_example (typed : option string) : Run unit :=
  try_finally
    (try_except_else
       (line <~ input typed "Enter a positive number: " ;;
        num <~ to_int int line ;;
        _ <~ (if 0 <? num then ret tt else raise AssertionError) ;;
        ret num)
       [ (except ValueError, print "Invalid input. Please enter a number.");
         (except AssertionError, print "Number must be greater than zero.") ]
       (fun num => print ("Thank you! You entered: " +:+ pretty num)))
    (print "Execution complete.").

End Examples.

(** The files that can be opened: what [read] gives for each, its text or
    the exception reading it raises. *)
Abbreviation disk := (gmap string (result error string)).

(** [with open(path, "r") as file: body]: a missing file raises
    [FileNotFoundError]; an opened file is closed when [body] is left. *)
Definition with_open {A} (fs : disk) (path : string)
    (body : result error string -> Run A) : Run A :=
  match fs !! path with
  | None => raise FileNotFoundError
  | Some file =>
      _ <~ emit (Opened path) ;;
      fun t => let '(r, t1) := body file t in (r, (t1 ++ [Closed path])%list)
  end.

(** [file.read()]. *)
Definition read (file : result error string) : Run string :=
  match file with
  | Return text => ret text
  | Raise e => raise e
  end.

(** Example 3 (lines 884-891). *)
Definition file_example (fs : disk) : Run unit :=
  try_finally
    (try_except_else
       (with_open fs "data.txt" (fun file =>
          content <~ read file ;;
          print content))
       [ (except FileNotFoundError, print "The file was not found.") ]
       ret)
    (print "Done reading the file.").

(** How often an effect occurred. *)
Definition occurrences (e : effect) (t : trace) : nat :=
  length (filter (fun e' => e' = e) t).

End TryExamples.

(** *** A [jwt] library whose errors are in neither class

    [decode] refuses every token with an error that is neither an
    [ExpiredSignatureError] nor a [JWTError]. *)

Module ForeignJwt.

Definition library : jwt.Library := {|
  jwt.error := unit;
  jwt.ExpiredSignatureError _ := false;
  jwt.JWTError _ := false;
  jwt.encode _ _ _ := "";
  jwt.decode _ _ _ _ := Raise tt
|}.

End ForeignJwt.

(** A user who types "abc" and then closes the input. *)
Definition typed_then_closed (n : nat) : option string :=
  match n with
  | 0%nat => Some "abc"
  | _ => None
  end.

(** *** Further vocabulary *)

(** Once the [exp] time of a token has passed, [decode] raises an
    [ExpiredSignatureError]. *)
Definition decode_expired `{jwt.Library} : Prop :=
  forall (claims : dict) key algorithm expire now,
    claims !! "exp" = Some (VDatetime expire) ->
    (forall k t, claims !! k = Some (VDatetime t) -> k = "exp") ->
    expire < now ->
    exists e,
      jwt.decode (jwt.encode claims key algorithm) key [algorithm] now = Raise e
      /\ jwt.ExpiredSignatureError e = true.

(** A dictionary that passes as an instance of a model of string fields: it
    has the fields of the model and no other, each holding a string. *)
Definition is_instance (model : list Models.field) (d : dict) : Prop :=
  Forall (fun f => Models.field_type f = Models.Str) model
  /\ dom d = list_to_set (Models.field_names model)
  /\ forall name, In name (Models.field_names model) ->
       exists s, d !! name = Some (VStr s).

(** Two calls of [create_jwt_token] on the same [data], one after the
    other. *)
Definition create_two_tokens `{jwt.Library}
    (utcnow1 delta1 utcnow2 delta2 : Z) (data : positive)
  : JwtAuth.M (string * string) :=
  JwtAuth.bindM (JwtAuth.create_jwt_token utcnow1 data delta1) (fun token1 =>
  JwtAuth.bindM (JwtAuth.create_jwt_token utcnow2 data delta2) (fun token2 =>
  JwtAuth.ret (token1, token2))).

(** The messages of a list, written one after the other. *)
Definition joined (messages : list string) : string :=
  foldr String.append "" messages.

(** The text of [log.txt], empty when the file is missing. *)
Definition log_text (fs : Notifications.files) : string :=
  default "" (fs !! "log.txt").

(** [n] layers of [log_requests] around a handler. *)
Definition layered (n : nat) (call_next : Middleware.handler) : Middleware.handler :=
  Nat.iter n Middleware.log_requests call_next.

(* ===================================================================== *)
(** * Part II: properties                                                 *)
(* ===================================================================== *)

(** ** The first application *)


(** ** Custom exceptions *)

Lemma check_value_negative (x : Z) :
  x < 0 ->
  ErrorHandling.check_value x = Raise (MyCustomError "Negative value not allowed!").
Proof.
  intros Hx. unfold ErrorHandling.check_value.
  destruct (Z.ltb_spec x 0) as [_ | Hge]; [reflexivity | lia].
Qed.

Lemma check_value_non_negative (x : Z) :
  0 <= x -> ErrorHandling.check_value x = Return tt.
Proof.
  intros Hx. unfold ErrorHandling.check_value.
  destruct (Z.ltb_spec x 0) as [Hlt | _]; [lia | reflexivity].
Qed.

(** C6: for every integer [x], [check_value x] raises [MyCustomError] with
    the message "Negative value not allowed!" exactly when [x < 0], and
    returns (the value [None], with nothing else done) exactly when
    [x >= 0]. *)
Theorem check_value_raises_iff_negative (x : Z) :
  (ErrorHandling.check_value x = Raise (MyCustomError "Negative value not allowed!")
   <-> x < 0)
  /\ (ErrorHandling.check_value x = Return tt <-> 0 <= x)
  /\ (forall e, ErrorHandling.check_value x = Raise e ->
        e = MyCustomError "Negative value not allowed!").
Proof.
  destruct (Z.lt_ge_cases x 0) as [Hlt | Hge].
  - rewrite (check_value_negative x Hlt). repeat split; try done; try lia.
    congruence.
  - rewrite (check_value_non_negative x Hge). repeat split; try done; lia.
Qed.

(** The tutorial's own call, [check_value(-10)] under
    [except MyCustomError as e], prints the message. *)
Example report_minus_ten :
  ErrorHandling.report (-10) = Return ["Custom Error: Negative value not allowed!"].
Proof. reflexivity. Qed.

Example report_three : ErrorHandling.report 3 = Return [].
Proof. reflexivity. Qed.

(** ** The placeholder records *)

(** Closes a shape goal on one concrete record. *)
Ltac shape_of_record :=
  unfold has_credentials; repeat split; try reflexivity;
  try (eexists; reflexivity).

Lemma basic_users_shape :
  map_Forall (fun name user =>
    has_credentials name user /\ dom user = {[ "username"; "password" ]})
    BasicAuth.fake_users_db.
Proof. apply map_Forall_singleton. shape_of_record. Qed.

Lemma oauth2_users_shape :
  map_Forall (fun name user =>
    has_credentials name user
    /\ dom user = {[ "username"; "password"; "full_name" ]})
    OAuth2.fake_users_db.
Proof. apply map_Forall_singleton. shape_of_record. Qed.

Lemma jwt_users_shape :
  map_Forall (fun name user =>
    has_credentials name user /\ dom user = {[ "username"; "password" ]})
    JwtAuth.fake_users_db.
Proof. apply map_Forall_singleton. shape_of_record. Qed.

Lemma role_users_shape :
  map_Forall (fun name user =>
    has_credentials name user
    /\ dom user = {[ "username"; "password"; "role" ]}
    /\ user !! "role" = Some (VStr name))
    RoleAuth.fake_users_db.
Proof.
  apply map_Forall_insert_2; [shape_of_record |].
  apply map_Forall_singleton. shape_of_record.
Qed.

(** C7, as stated, fails on the user records: the record of the HTTP Basic
    example (lines 338-343) is stored under "admin" with a username and a
    password and has no role. *)
Lemma basic_auth_user_has_no_role :
  In BasicAuth.fake_users_db mock_user_databases
  /\ BasicAuth.fake_users_db !! "admin"
     = Some {[ "username" := VStr "admin"; "password" := VStr "secret" ]}
  /\ ({[ "username" := VStr "admin"; "password" := VStr "secret" ]} : dict) !! "role"
     = None.
Proof. split; [by left | split; reflexivity]. Qed.

(** C7, amended: [Item] has the fields name, description, price and tax (in
    both of its definitions), [Token] has the string fields access_token and
    token_type, and every user record of every mock database holds a username
    and a password; a role is held by the records of the role-based example,
    which hold exactly username, password and role, while the records of the
    HTTP Basic and JWT examples hold username and password only and the one of
    the OAuth2 example holds a full_name besides them. *)
Theorem placeholder_records_shapes :
  Models.field_names Models.Item = ["name"; "description"; "price"; "tax"]
  /\ Models.field_names Models.Item_validated = ["name"; "description"; "price"; "tax"]
  /\ Models.Token = [Models.required "access_token" Models.Str;
                     Models.required "token_type" Models.Str]
  /\ (forall db name user,
        In db mock_user_databases -> db !! name = Some user ->
        has_credentials name user)
  /\ (forall name user,
        RoleAuth.fake_users_db !! name = Some user ->
        dom user = {[ "username"; "password"; "role" ]}
        /\ user !! "role" = Some (VStr name))
  /\ (forall name user,
        BasicAuth.fake_users_db !! name = Some user
        \/ JwtAuth.fake_users_db !! name = Some user ->
        dom user = {[ "username"; "password" ]})
  /\ (forall name user,
        OAuth2.fake_users_db !! name = Some user ->
        dom user = {[ "username"; "password"; "full_name" ]}).
Proof.
  split; [reflexivity |]. split; [reflexivity |]. split; [reflexivity |].
  split; [| split; [| split]].
  - intros db name user Hdb Hlook.
    destruct Hdb as [<- | [<- | [<- | [<- | []]]]].
    + exact (proj1 (basic_users_shape name user Hlook)).
    + exact (proj1 (oauth2_users_shape name user Hlook)).
    + exact (proj1 (jwt_users_shape name user Hlook)).
    + exact (proj1 (role_users_shape name user Hlook)).
  - intros name user Hlook. exact (proj2 (role_users_shape name user Hlook)).
  - intros name user [Hlook | Hlook].
    + exact (proj2 (basic_users_shape name user Hlook)).
    + exact (proj2 (jwt_users_shape name user Hlook)).
  - intros name user Hlook. exact (proj2 (oauth2_users_shape name user Hlook)).
Qed.

(** ** The role check *)

(** What [get_current_user] returns is a record of the database, stored
    under the requested name. *)
Lemma get_current_user_returns (username : string) (user : dict) :
  RoleAuth.get_current_user username = Return user ->
  RoleAuth.fake_users_db !! username = Some user.
Proof.
  unfold RoleAuth.get_current_user.
  destruct (RoleAuth.fake_users_db !! username) as [u |] eqn:Hlook; simpl.
  - destruct (bool_decide (u = ∅)); simpl; [discriminate |].
    intros [= ->]. reflexivity.
  - discriminate.
Qed.

(** The role check on a record whose role is a string. *)
Lemma check_role_on_role (required_role role : string) (user : dict) :
  user !! "role" = Some (VStr role) ->
  RoleAuth.check_role required_role user
  = if bool_decide (role = required_role) then Return user
    else Raise (HTTPException 403 "You do not have permission to access this resource").
Proof.
  intros Hrole. unfold RoleAuth.check_role, RoleAuth.role_dependency, getitem.
  rewrite Hrole. simpl.
  destruct (decide (role = required_role)) as [-> | Hne].
  - rewrite !bool_decide_eq_true_2 by reflexivity. reflexivity.
  - rewrite !bool_decide_eq_false_2 by congruence. reflexivity.
Qed.

(** X19: a record without a role does not reach the comparison: the
    subscript raises [KeyError], whatever role is required. *)
Lemma check_role_without_role (required_role : string) (user : dict) :
  user !! "role" = None ->
  RoleAuth.check_role required_role user = Raise (KeyError "role").
Proof.
  intros Hrole. unfold RoleAuth.check_role, RoleAuth.role_dependency, getitem.
  by rewrite Hrole.
Qed.

(** C3: for every required role and every user record that
    [get_current_user] returns, the dependency made by
    [check_role required_role] raises the 403 [HTTPException] with the detail
    "You do not have permission to access this resource" exactly when the
    record's role differs from [required_role], and returns the record
    unchanged otherwise. *)
Theorem check_role_forbids_iff_role_differs
    (required_role username : string) (user : dict) :
  RoleAuth.get_current_user username = Return user ->
  exists role,
    user !! "role" = Some (VStr role)
    /\ (RoleAuth.check_role required_role user
        = Raise (HTTPException 403 "You do not have permission to access this resource")
        <-> role <> required_role)
    /\ (RoleAuth.check_role required_role user = Return user
        <-> role = required_role).
Proof.
  intros Hget. apply get_current_user_returns in Hget.
  destruct (role_users_shape username user Hget) as (_ & _ & Hrole).
  exists username. split; [exact Hrole |].
  rewrite (check_role_on_role required_role username user Hrole).
  destruct (decide (username = required_role)) as [Heq | Hne].
  - rewrite bool_decide_eq_true_2 by exact Heq.
    split; split; try done.
  - rewrite bool_decide_eq_false_2 by exact Hne.
    split; split; try done.
Qed.

Lemma check_role_forbids_iff_role_differs_witness :
  RoleAuth.get_current_user "user"
  = Return {[ "username" := VStr "user"; "password" := VStr "user"; "role" := VStr "user" ]}
  /\ exists role,
       ({[ "username" := VStr "user"; "password" := VStr "user"; "role" := VStr "user" ]}
          : dict) !! "role" = Some (VStr role)
       /\ (RoleAuth.check_role "admin"
             {[ "username" := VStr "user"; "password" := VStr "user"; "role" := VStr "user" ]}
           = Raise (HTTPException 403 "You do not have permission to access this resource")
           <-> role <> "admin")
       /\ (RoleAuth.check_role "admin"
             {[ "username" := VStr "user"; "password" := VStr "user"; "role" := VStr "user" ]}
           = Return {[ "username" := VStr "user"; "password" := VStr "user";
                       "role" := VStr "user" ]}
           <-> role = "admin").
Proof.
  split; [reflexivity |].
  apply (check_role_forbids_iff_role_differs "admin" "user"). reflexivity.
Defined.

Example admin_route_refuses_user :
  RoleAuth.resolve "admin" "user"
  = Raise (HTTPException 403 "You do not have permission to access this resource").
Proof. reflexivity. Qed.

Example admin_route_admits_admin :
  RoleAuth.resolve "admin" "admin"
  = Return {[ "username" := VStr "admin"; "password" := VStr "admin";
              "role" := VStr "admin" ]}.
Proof. reflexivity. Qed.

Example unknown_user_is_refused_before_the_check :
  RoleAuth.resolve "admin" "nobody" = Raise (HTTPException 400 "Invalid credentials").
Proof. reflexivity. Qed.

(** ** The JWT example *)

Section JwtProperties.
Context `{jwt.Library}.

(** [create_jwt_token] allocates one object, the copy, writes the expiry
    time into it and signs it. *)
Lemma create_jwt_token_run (utcnow expires_delta : Z) (data : positive)
    (h : JwtAuth.heap) (d : dict) :
  h !! data = Some d ->
  JwtAuth.create_jwt_token utcnow data expires_delta h
  = (Return (jwt.encode (signed_claims utcnow expires_delta d) JwtAuth.SECRET_KEY "HS256"),
     <[ fresh (dom h) := signed_claims utcnow expires_delta d ]> h).
Proof.
  intros Hdata.
  unfold JwtAuth.create_jwt_token, JwtAuth.dict_copy, JwtAuth.bindM,
    JwtAuth.deref, JwtAuth.new_dict, JwtAuth.dict_update, JwtAuth.ret.
  rewrite Hdata. simpl.
  rewrite !lookup_insert_eq. simpl.
  rewrite insert_insert_eq.
  rewrite <- (insert_union_singleton_l d "exp"). reflexivity.
Qed.

(** A reference that is in use is not the one a new object gets. *)
Lemma fresh_reference_differs (h : JwtAuth.heap) (l : positive) :
  is_Some (h !! l) -> fresh (dom h) <> l.
Proof.
  intros Hl Heq. apply elem_of_dom in Hl.
  apply (is_fresh (dom h)). rewrite Heq. exact Hl.
Qed.

(** C10: [create_jwt_token] leaves the caller's dictionary as it was.  The
    object behind [data] holds after the call what it held before, so it
    gains no "exp" key; so does every other object of the caller; the expiry
    time is written into a new object, the copy, which is the one signed. *)
Theorem create_jwt_token_leaves_data (utcnow expires_delta : Z) (data : positive)
    (h : JwtAuth.heap) (d : dict) :
  h !! data = Some d ->
  (JwtAuth.create_jwt_token utcnow data expires_delta h).2 !! data = Some d
  /\ (d !! "exp" = None ->
      forall d', (JwtAuth.create_jwt_token utcnow data expires_delta h).2 !! data = Some d' ->
                 d' !! "exp" = None)
  /\ (forall l, is_Some (h !! l) ->
        (JwtAuth.create_jwt_token utcnow data expires_delta h).2 !! l = h !! l)
  /\ (exists to_encode,
        to_encode <> data /\ h !! to_encode = None
        /\ (JwtAuth.create_jwt_token utcnow data expires_delta h).2 !! to_encode
           = Some (signed_claims utcnow expires_delta d)
        /\ (JwtAuth.create_jwt_token utcnow data expires_delta h).1
           = Return (jwt.encode (signed_claims utcnow expires_delta d)
                       JwtAuth.SECRET_KEY "HS256")).
Proof.
  intros Hdata.
  rewrite (create_jwt_token_run utcnow expires_delta data h d Hdata). simpl.
  assert (Hne : fresh (dom h) <> data)
    by (apply fresh_reference_differs; rewrite Hdata; eauto).
  assert (Hkept : forall l, is_Some (h !! l) ->
            <[ fresh (dom h) := signed_claims utcnow expires_delta d ]> h !! l = h !! l).
  { intros l Hl. apply lookup_insert_ne. by apply fresh_reference_differs. }
  split; [| split; [| split]].
  - rewrite Hkept by (rewrite Hdata; eauto). exact Hdata.
  - intros Hnoexp d'. rewrite Hkept by (rewrite Hdata; eauto).
    rewrite Hdata. intros [= <-]. exact Hnoexp.
  - exact Hkept.
  - exists (fresh (dom h)). split; [exact Hne |]. split.
    + apply not_elem_of_dom. apply is_fresh.
    + split; [apply lookup_insert_eq | reflexivity].
Qed.

Lemma password_matches_admin (username password : string) :
  password_matches username password <-> username = "admin" /\ password = "secret".
Proof.
  unfold password_matches, JwtAuth.fake_users_db. split.
  - intros (user & Hlook & Hpw).
    apply lookup_singleton_Some in Hlook as [<- <-].
    split; [reflexivity |].
    rewrite lookup_insert_ne in Hpw by discriminate.
    rewrite lookup_singleton_eq in Hpw. by simplify_eq.
  - intros [-> ->]. eexists. split; reflexivity.
Qed.

Lemma rejects_unless_match (username password : string) :
  JwtAuth.rejects (JwtAuth.fake_users_db !! username) password
  = Return (negb (bool_decide (username = "admin" /\ password = "secret"))).
Proof.
  unfold JwtAuth.fake_users_db.
  destruct (decide (username = "admin")) as [-> | Hname].
  - rewrite lookup_singleton_eq. unfold JwtAuth.rejects, truthy, getitem.
    rewrite (bool_decide_eq_false_2 (_ = ∅)) by apply insert_non_empty.
    cbn [negb default from_option id].
    rewrite lookup_insert_ne by discriminate. rewrite lookup_singleton_eq.
    cbn [bind]. f_equal. f_equal. apply bool_decide_ext.
    split; [intros [= ->]; done | intros [_ ->]; done].
  - rewrite lookup_singleton_ne by congruence.
    rewrite (bool_decide_eq_false_2 (_ /\ _)) by (intros [? _]; done).
    reflexivity.
Qed.

Lemma login_run (utcnow : Z) (username password : string) (h : JwtAuth.heap) :
  (JwtAuth.login_for_access_token utcnow username password h).1
  = if bool_decide (username = "admin" /\ password = "secret")
    then Return {[ "access_token" := VStr (issued_token utcnow username);
                   "token_type" := VStr "bearer" ]}
    else Raise (JwtAuth.Python (HTTPException 400 "Invalid credentials")).
Proof.
  unfold JwtAuth.login_for_access_token.
  unfold JwtAuth.bindM at 1. unfold JwtAuth.lift.
  rewrite rejects_unless_match.
  destruct (bool_decide (username = "admin" /\ password = "secret"));
    cbn [negb]; [| reflexivity].
  unfold JwtAuth.bindM at 1. unfold JwtAuth.new_dict at 1. cbv zeta.
  unfold JwtAuth.bindM at 1.
  rewrite (create_jwt_token_run utcnow (JwtAuth.timedelta_minutes 30) _ _
             {[ "sub" := VStr username ]}) by apply lookup_insert_eq.
  unfold JwtAuth.ret. cbn [fst]. unfold issued_token, signed_claims.
  replace (<[ "exp" := VDatetime (utcnow + JwtAuth.timedelta_minutes 30) ]>
             ({[ "sub" := VStr username ]} : dict))
    with ({[ "sub" := VStr username; "exp" := VDatetime (utcnow + 1800) ]} : dict);
    [reflexivity |].
  apply map_eq. intros k.
  destruct (decide (k = "exp")) as [-> | Hexp].
  - rewrite lookup_insert_eq.
    rewrite lookup_insert_ne by done. rewrite lookup_singleton_eq. reflexivity.
  - rewrite (lookup_insert_ne _ "exp" k) by congruence.
    destruct (decide (k = "sub")) as [-> | Hsub].
    + rewrite lookup_insert_eq, lookup_singleton_eq. reflexivity.
    + rewrite lookup_insert_ne by congruence.
      rewrite !lookup_singleton_ne by congruence. reflexivity.
Qed.

(** A rejected login raises before anything is allocated or signed. *)
Lemma login_rejected (utcnow : Z) (username password : string) (h : JwtAuth.heap) :
  ~ (username = "admin" /\ password = "secret") ->
  JwtAuth.login_for_access_token utcnow username password h
  = (Raise (JwtAuth.Python (HTTPException 400 "Invalid credentials")), h).
Proof.
  intros Hbad. unfold JwtAuth.login_for_access_token.
  unfold JwtAuth.bindM at 1. unfold JwtAuth.lift.
  rewrite rejects_unless_match.
  rewrite bool_decide_eq_false_2 by exact Hbad. reflexivity.
Qed.

(** C1: for every username and password, [login_for_access_token] returns
    an access token with the token type "bearer" exactly when the username is
    in [fake_users_db] and the stored password is the supplied one; in every
    other case it raises the [HTTPException] with status code 400 and detail
    "Invalid credentials" and returns no token. *)
Theorem login_issues_token_iff_password_matches
    (utcnow : Z) (username password : string) (h : JwtAuth.heap) :
  (password_matches username password
   <-> exists access_token,
         (JwtAuth.login_for_access_token utcnow username password h).1
         = Return {[ "access_token" := VStr access_token;
                     "token_type" := VStr "bearer" ]})
  /\ (~ password_matches username password
      <-> JwtAuth.login_for_access_token utcnow username password h
          = (Raise (JwtAuth.Python (HTTPException 400 "Invalid credentials")), h))
  /\ (password_matches username password ->
      (JwtAuth.login_for_access_token utcnow username password h).1
      = Return {[ "access_token" := VStr (issued_token utcnow username);
                  "token_type" := VStr "bearer" ]}).
Proof.
  rewrite password_matches_admin.
  pose proof (login_run utcnow username password h) as Hrun.
  destruct (decide (username = "admin" /\ password = "secret")) as [Hok | Hbad].
  - rewrite bool_decide_eq_true_2 in Hrun by exact Hok.
    split; [| split].
    + split; [intros _; eexists; exact Hrun | intros _; exact Hok].
    + split; [intros Hn; contradiction |].
      intros Hraise. rewrite Hraise in Hrun. discriminate.
    + intros _. exact Hrun.
  - rewrite bool_decide_eq_false_2 in Hrun by exact Hbad.
    split; [| split].
    + split; [intros Hok; contradiction |].
      intros [tok Htok]. rewrite Htok in Hrun. discriminate.
    + split; [intros _; apply login_rejected, Hbad | intros _; exact Hbad].
    + intros Hok; contradiction.
Qed.

End JwtProperties.

Section JwtRoutes.
Context `{jwt.Library}.


Lemma read_protected_raised (now : Z) (token : string) (e : jwt.error) :
  jwt.decode token JwtAuth.SECRET_KEY ["HS256"] now = Raise e ->
  JwtAuth.read_protected now token
  = if jwt.ExpiredSignatureError e
    then Raise (JwtAuth.Python (HTTPException 401 "Token has expired"))
    else if jwt.JWTError e
         then Raise (JwtAuth.Python (HTTPException 401 "Invalid token"))
         else Raise (JwtAuth.FromJwt e).
Proof.
  intros Hdec. unfold JwtAuth.read_protected, JwtAuth.decode_token.
  rewrite Hdec. cbn [bind try_except dispatch].
  cbn [JwtAuth.except_ExpiredSignatureError JwtAuth.except_JWTError].
  reflexivity.
Qed.




End JwtRoutes.

(** *** The plain library meets what is asked of a [jwt] library *)

Lemma of_digits_digits_of (p : positive) :
  PlainJwt.of_digits (PlainJwt.digits_of p) = Some p.
Proof.
  induction p as [q IH | q IH |]; cbn [PlainJwt.digits_of PlainJwt.of_digits].
  - cbn. rewrite IH. reflexivity.
  - cbn. rewrite IH. reflexivity.
  - reflexivity.
Qed.

Lemma plain_parse_encode (claims : dict) (key algorithm : string) :
  PlainJwt.parse (PlainJwt.plain_encode claims key algorithm)
  = Some (key, algorithm, jwt.json_of_value <$> claims).
Proof.
  unfold PlainJwt.parse, PlainJwt.plain_encode.
  rewrite of_digits_digits_of. cbn [mbind option_bind].
  apply decode_encode.
Qed.





Lemma create_jwt_token_leaves_data_witness :
  ({[ 1%positive := {[ "sub" := VStr "admin" ]} ]} : JwtAuth.heap) !! 1%positive
  = Some ({[ "sub" := VStr "admin" ]} : dict)
  /\ (JwtAuth.create_jwt_token 0 1 1800
        ({[ 1%positive := {[ "sub" := VStr "admin" ]} ]} : JwtAuth.heap)).2 !! 1%positive
     = Some ({[ "sub" := VStr "admin" ]} : dict).
Proof.
  split; [reflexivity |].
  apply (create_jwt_token_leaves_data 0 1800 1%positive
           {[ 1%positive := {[ "sub" := VStr "admin" ]} ]} {[ "sub" := VStr "admin" ]}).
  reflexivity.
Defined.

(** ** The database session dependency *)

Lemma close_calls_after_close (db : nat) (l : Dependency.log) :
  Dependency.close_calls db (l ++ [Dependency.Closed db])%list
  = S (Dependency.close_calls db l).
Proof.
  unfold Dependency.close_calls.
  rewrite list.filter_app, List.length_app.
  rewrite filter_cons_True by reflexivity.
  rewrite filter_nil. cbn [length]. lia.
Qed.

Section GetDbProperties.
Variable connect_to_database : Dependency.IO nat.
Variable close_outcome : nat -> result exn unit.

Local Abbreviation get_db := (Dependency.get_db connect_to_database close_outcome).

(** Resuming the suspended [get_db], by [next] or by [throw], runs the
    [finally] block: one call of [db.close()], and nothing else. *)
Lemma get_db_resumed (l l1 : Dependency.log) (db : nat) :
  connect_to_database l = (Return db, l1) ->
  exists gen,
    get_db l = (Return gen, l1)
    /\ Dependency.yielded gen = db
    /\ forall r l2,
         Dependency.resume gen r l2
         = (match close_outcome db with
            | Return _ => match r with
                          | Dependency.Next => Return tt
                          | Dependency.Throw e => Raise e
                          end
            | Raise e' => Raise e'
            end, (l2 ++ [Dependency.Closed db])%list).
Proof.
  intros Hconnect. unfold Dependency.get_db. rewrite Hconnect.
  eexists. split; [reflexivity |]. split; [reflexivity |].
  intros r l2. cbn [Dependency.resume].
  unfold Dependency.try_finally, Dependency.after_yield, Dependency.close.
  reflexivity.
Qed.

(** C8: in every run of [get_db] that yielded a session, whether the path
    operation using the session returns or raises, [db.close()] is called
    exactly once when [get_db] finishes: the suspended generator, resumed by
    [next] or by [throw], appends one [Closed db] to the log and nothing
    else; so the log of a request is the log of the path operation followed
    by that one call, which makes one call more than the operation made
    itself.  The outcome is the operation's when [close] returns. *)
Theorem get_db_closes_exactly_once
    {A : Type} (operation : nat -> Dependency.IO A)
    (l l1 : Dependency.log) (db : nat) :
  connect_to_database l = (Return db, l1) ->
  (exists gen,
     get_db l = (Return gen, l1)
     /\ Dependency.yielded gen = db
     /\ forall r l2,
          (Dependency.resume gen r l2).2 = (l2 ++ [Dependency.Closed db])%list)
  /\ (Dependency.Depends get_db operation l).2
     = ((operation db l1).2 ++ [Dependency.Closed db])%list
  /\ Dependency.close_calls db (Dependency.Depends get_db operation l).2
     = S (Dependency.close_calls db (operation db l1).2)
  /\ (close_outcome db = Return tt ->
      (Dependency.Depends get_db operation l).1 = (operation db l1).1).
Proof.
  intros Hconnect.
  destruct (get_db_resumed l l1 db Hconnect) as (gen & Hgen & Hdb & Hresume).
  assert (Hlog : (Dependency.Depends get_db operation l).2
                 = ((operation db l1).2 ++ [Dependency.Closed db])%list).
  { unfold Dependency.Depends. rewrite Hgen, Hdb.
    destruct (operation db l1) as [[b | e] l2]; rewrite Hresume; reflexivity. }
  split; [| split; [| split]].
  - exists gen. split; [exact Hgen |]. split; [exact Hdb |].
    intros r l2. rewrite Hresume. reflexivity.
  - exact Hlog.
  - rewrite Hlog. apply close_calls_after_close.
  - intros Hclose. unfold Dependency.Depends. rewrite Hgen, Hdb.
    destruct (operation db l1) as [[b | e] l2]; rewrite Hresume, Hclose;
      reflexivity.
Qed.

(** When the session cannot be opened, nothing is yielded and nothing is
    closed. *)
Lemma get_db_connect_fails (l l1 : Dependency.log) (e : exn) :
  connect_to_database l = (Raise e, l1) -> get_db l = (Raise e, l1).
Proof. intros Hconnect. unfold Dependency.get_db. by rewrite Hconnect. Qed.

End GetDbProperties.

(** A session numbered 7, a [close] that returns, and a path operation that
    raises. *)
Lemma get_db_closes_exactly_once_witness :
  Dependency.close_calls 7
    (Dependency.Depends
       (Dependency.get_db (fun l => (Return 7%nat, (l ++ [Dependency.Connected 7])%list))
          (fun _ => Return tt))
       (fun (_ : nat) l => (@Raise exn unit ValueError, l)) []).2
  = 1%nat.
Proof.
  apply (get_db_closes_exactly_once
           (fun l => (Return 7%nat, (l ++ [Dependency.Connected 7])%list))
           (fun _ => Return tt)
           (fun (_ : nat) l => (@Raise exn unit ValueError, l))
           [] [Dependency.Connected 7] 7%nat).
  reflexivity.
Defined.

(** ** The retry loop *)


Section RetryLoopProperties.
Variable int : string -> option Z.
Variable stdin : nat -> option string.

Local Abbreviation retry_loop := (ErrorHandling.retry_loop int stdin).

(** [k] invalid lines in a row cost [k] turns; each adds the prompt and the
    complaint to the terminal. *)
Lemma retry_loop_skips (k fuel : nat) (c : ErrorHandling.console) :
  (forall i, (i < k)%nat -> invalid_line int stdin (ErrorHandling.consumed c + i)) ->
  retry_loop (k + fuel) c
  = retry_loop fuel
      {| ErrorHandling.consumed := ErrorHandling.consumed c + k;
         ErrorHandling.written :=
           (ErrorHandling.written c
            ++ concat (replicate k [ErrorHandling.Prompt "Enter a number: ";
                                    ErrorHandling.Print "Invalid input. Please try again."]))%list |}.
Proof.
  revert c. induction k as [| k IH]; intros c Hinvalid.
  - cbn [Nat.add replicate concat]. rewrite app_nil_r, Nat.add_0_r.
    destruct c; reflexivity.
  - destruct (Hinvalid 0%nat ltac:(lia)) as (line & Hline & Hint).
    rewrite Nat.add_0_r in Hline.
    cbn [Nat.add ErrorHandling.retry_loop].
    unfold ErrorHandling.retry_body. rewrite Hline, Hint.
    rewrite IH.
    + cbn [ErrorHandling.consumed ErrorHandling.written replicate concat].
      rewrite <- !app_assoc. cbn [app].
      replace (S (ErrorHandling.consumed c) + k)%nat
        with (ErrorHandling.consumed c + S k)%nat by lia.
      reflexivity.
    + intros i Hi. cbn [ErrorHandling.consumed].
      replace (S (ErrorHandling.consumed c) + i)%nat
        with (ErrorHandling.consumed c + S i)%nat by lia.
      apply Hinvalid. lia.
Qed.

(** X17: when the input ends before any line was accepted, [input] raises
    [EOFError], which [except ValueError] does not catch: the loop is left by
    that exception, after one complaint for each line read. *)
Lemma retry_loop_end_of_input (k fuel : nat) :
  stdin k = None ->
  (forall i, (i < k)%nat -> invalid_line int stdin i) ->
  (k < fuel)%nat ->
  retry_loop fuel ErrorHandling.start
  = Some (Raise EOFError,
          {| ErrorHandling.consumed := k;
             ErrorHandling.written := ErrorHandling.transcript k |}).
Proof.
  intros Hend Hbefore Hfuel.
  replace fuel with (k + S (fuel - S k))%nat by lia.
  rewrite retry_loop_skips by (intros i Hi; apply Hbefore, Hi).
  cbn [ErrorHandling.retry_loop ErrorHandling.start
         ErrorHandling.consumed ErrorHandling.written Nat.add app].
  unfold ErrorHandling.retry_body.
  cbn [ErrorHandling.consumed ErrorHandling.written].
  rewrite Hend. reflexivity.
Qed.


End RetryLoopProperties.


Example retry_loop_run :
  ErrorHandling.retry_loop ErrorHandling.int_decimal typed 3 ErrorHandling.start
  = Some (Return 12,
          {| ErrorHandling.consumed := 3;
             ErrorHandling.written :=
               [ ErrorHandling.Prompt "Enter a number: ";
                 ErrorHandling.Print "Invalid input. Please try again.";
                 ErrorHandling.Prompt "Enter a number: ";
                 ErrorHandling.Print "Invalid input. Please try again.";
                 ErrorHandling.Prompt "Enter a number: " ] |}).
Proof. reflexivity. Qed.

(** A user who only ever types "abc" is asked again and again. *)
Example retry_loop_never_leaves (fuel : nat) :
  ErrorHandling.retry_loop ErrorHandling.int_decimal (fun _ => Some "abc") fuel
    ErrorHandling.start = None.
Proof.
  replace fuel with (fuel + 0)%nat by lia.
  rewrite retry_loop_skips; [reflexivity |].
  intros i _. by exists "abc".
Qed.

(* ===================================================================== *)
(** * Part II, continued: the other snippets                              *)
(* ===================================================================== *)

(** ** HTTP Basic authentication *)

Lemma authenticate_user_run (credentials : HttpBasic.HTTPBasicCredentials) :
  BasicAuthRoutes.authenticate_user credentials
  = if bool_decide (HttpBasic.username credentials = "admin"
                    /\ HttpBasic.password credentials = "secret")
    then Return (HttpBasic.username credentials)
    else Raise (HttpBasic.HTTPException 401 "Invalid credentials"
                  {[ "WWW-Authenticate" := "Basic" ]}).
Proof.
  unfold BasicAuthRoutes.authenticate_user.
  change BasicAuth.fake_users_db with JwtAuth.fake_users_db.
  rewrite rejects_unless_match.
  destruct (bool_decide (HttpBasic.username credentials = "admin"
                         /\ HttpBasic.password credentials = "secret"));
    reflexivity.
Qed.

(** X1: the route [/protected/] behind [authenticate_user] greets the sent
    username exactly when that name is in [fake_users_db] with the sent
    password; every other request is refused with status 401, the detail
    "Invalid credentials" and the header [WWW-Authenticate: Basic]. *)
Theorem basic_route_greets_iff_password_matches
    (credentials : HttpBasic.HTTPBasicCredentials) :
  let stored :=
    exists user,
      BasicAuth.fake_users_db !! HttpBasic.username credentials = Some user
      /\ user !! "password" = Some (VStr (HttpBasic.password credentials)) in
  (stored
   <-> BasicAuthRoutes.protected_route credentials
       = Return {[ "message" :=
                     VStr ("Hello, " +:+ HttpBasic.username credentials
                           +:+ ", you're authenticated!") ]})
  /\ (~ stored
      <-> BasicAuthRoutes.protected_route credentials
          = Raise (HttpBasic.HTTPException 401 "Invalid credentials"
                     {[ "WWW-Authenticate" := "Basic" ]})).
Proof.
  cbv zeta.
  change BasicAuth.fake_users_db with JwtAuth.fake_users_db.
  fold (password_matches (HttpBasic.username credentials)
          (HttpBasic.password credentials)).
  rewrite password_matches_admin.
  unfold BasicAuthRoutes.protected_route. rewrite authenticate_user_run.
  destruct (decide (HttpBasic.username credentials = "admin"
                    /\ HttpBasic.password credentials = "secret")) as [Hok | Hbad].
  - rewrite bool_decide_eq_true_2 by exact Hok. cbn [bind].
    split; split; try done; intros _; exact Hok.
  - rewrite bool_decide_eq_false_2 by exact Hbad. cbn [bind].
    split; split; try done.
Qed.

(** X2: the check written into [read_protected] in section 10 and the one
    [authenticate_user] makes against [fake_users_db] admit the same
    credentials; each refuses the others with status 401 and the header
    [WWW-Authenticate: Basic], under its own detail. *)
Theorem basic_checks_agree (credentials : HttpBasic.HTTPBasicCredentials) :
  (BasicAuthSection10.read_protected credentials
   = Return {[ "message" := VStr "Welcome, admin!" ]}
   /\ BasicAuthRoutes.authenticate_user credentials
      = Return (HttpBasic.username credentials))
  \/ (BasicAuthSection10.read_protected credentials
      = Raise (HttpBasic.HTTPException 401 "Incorrect credentials"
                 {[ "WWW-Authenticate" := "Basic" ]})
      /\ BasicAuthRoutes.authenticate_user credentials
         = Raise (HttpBasic.HTTPException 401 "Invalid credentials"
                    {[ "WWW-Authenticate" := "Basic" ]})).
Proof.
  rewrite authenticate_user_run. unfold BasicAuthSection10.read_protected.
  destruct (decide (HttpBasic.username credentials = "admin")) as [Hu | Hu];
    destruct (decide (HttpBasic.password credentials = "secret")) as [Hp | Hp].
  - left. rewrite !bool_decide_eq_true_2 by done. done.
  - right. rewrite (bool_decide_eq_true_2 _ Hu).
    rewrite (bool_decide_eq_false_2 (HttpBasic.password credentials = "secret")) by done.
    rewrite (bool_decide_eq_false_2 (_ /\ _)) by (intros [_ ?]; done). done.
  - right.
    rewrite (bool_decide_eq_false_2 (HttpBasic.username credentials = "admin")) by done.
    rewrite (bool_decide_eq_false_2 (_ /\ _)) by (intros [? _]; done). done.
  - right.
    rewrite (bool_decide_eq_false_2 (HttpBasic.username credentials = "admin")) by done.
    rewrite (bool_decide_eq_false_2 (_ /\ _)) by (intros [? _]; done). done.
Qed.

(** ** The OAuth2 example *)

Lemma oauth2_rejects_unless_match (username password : string) :
  JwtAuth.rejects (OAuth2Routes.get_user username) password
  = Return (negb (bool_decide (username = "user1" /\ password = "password123"))).
Proof.
  unfold OAuth2Routes.get_user, OAuth2.fake_users_db.
  destruct (decide (username = "user1")) as [-> | Hname].
  - rewrite lookup_singleton_eq. unfold truthy at 1.
    rewrite (bool_decide_eq_false_2 (_ = ∅)) by apply insert_non_empty.
    cbn [negb]. unfold JwtAuth.rejects, truthy, getitem.
    rewrite (bool_decide_eq_false_2 (_ = ∅)) by apply insert_non_empty.
    cbn [negb default from_option id].
    rewrite lookup_insert_ne by discriminate.
    rewrite lookup_insert_eq.
    cbn [bind]. f_equal. f_equal. apply bool_decide_ext.
    split; [intros [= ->]; done | intros [_ ->]; done].
  - rewrite lookup_singleton_ne by congruence.
    rewrite (bool_decide_eq_false_2 (_ /\ _)) by (intros [? _]; done).
    reflexivity.
Qed.


(** ** The login responses and the [Token] model *)

Lemma token_response_is_instance (access_token : string) :
  is_instance Models.Token
    {[ "access_token" := VStr access_token; "token_type" := VStr "bearer" ]}.
Proof.
  unfold is_instance, Models.Token, Models.field_names. cbn [map Models.field_name].
  split; [| split].
  - repeat constructor.
  - rewrite dom_insert_L, dom_singleton_L. cbn [list_to_set]. set_solver.
  - intros name [<- | [<- | []]].
    + exists access_token. apply lookup_insert_eq.
    + exists "bearer". rewrite lookup_insert_ne by discriminate.
      apply lookup_singleton_eq.
Qed.

(** X4: whatever [login_for_access_token] returns, in the OAuth2 example and
    in the JWT example, is an instance of the [Token] model both routes
    declare as [response_model]: it has the fields access_token and
    token_type and no other, each holding a string. *)
Theorem login_responses_are_tokens `{jwt.Library} :
  (forall form_data body,
     OAuth2Routes.login_for_access_token form_data = Return body ->
     is_instance Models.Token body)
  /\ (forall utcnow username password h body,
        (JwtAuth.login_for_access_token utcnow username password h).1 = Return body ->
        is_instance Models.Token body).
Proof.
  split.
  - intros form_data body.
    unfold OAuth2Routes.login_for_access_token.
    rewrite oauth2_rejects_unless_match. cbn [bind].
    destruct (negb _); [discriminate |].
    intros [= <-]. apply token_response_is_instance.
  - intros utcnow username password h body. rewrite login_run.
    destruct (bool_decide _); [| discriminate].
    intros [= <-]. apply token_response_is_instance.
Qed.

(** ** The routes of the role-based example *)

Lemma role_lookup_other (username : string) :
  username <> "admin" -> username <> "user" ->
  RoleAuth.fake_users_db !! username = None.
Proof.
  intros Hadmin Huser. unfold RoleAuth.fake_users_db.
  rewrite lookup_insert_ne by congruence.
  apply lookup_singleton_ne. congruence.
Qed.

Lemma resolve_unknown (required_role username : string) :
  username <> "admin" -> username <> "user" ->
  RoleAuth.resolve required_role username
  = Raise (HTTPException 400 "Invalid credentials").
Proof.
  intros Hadmin Huser. unfold RoleAuth.resolve, RoleAuth.get_current_user.
  rewrite (role_lookup_other username Hadmin Huser). reflexivity.
Qed.

Section RoleRoutesProperties.
Variable str_datetime : Z -> string.

Local Abbreviation admin_route := (RoleRoutes.admin_route str_datetime).
Local Abbreviation user_route := (RoleRoutes.user_route str_datetime).

Lemma admin_route_run (username : string) :
  admin_route username
  = if bool_decide (username = "admin")
    then Return {[ "message" := VStr "Hello admin, you have access to admin data." ]}
    else if bool_decide (username = "user")
         then Raise (HTTPException 403
                       "You do not have permission to access this resource")
         else Raise (HTTPException 400 "Invalid credentials").
Proof.
  destruct (decide (username = "admin")) as [-> | Hadmin]; [reflexivity |].
  rewrite (bool_decide_eq_false_2 _ Hadmin).
  destruct (decide (username = "user")) as [-> | Huser]; [reflexivity |].
  rewrite (bool_decide_eq_false_2 _ Huser).
  unfold RoleRoutes.admin_route.
  rewrite (resolve_unknown "admin" username Hadmin Huser). reflexivity.
Qed.

Lemma user_route_run (username : string) :
  user_route username
  = if bool_decide (username = "user")
    then Return {[ "message" := VStr "Hello user, you have access to user data." ]}
    else if bool_decide (username = "admin")
         then Raise (HTTPException 403
                       "You do not have permission to access this resource")
         else Raise (HTTPException 400 "Invalid credentials").
Proof.
  destruct (decide (username = "user")) as [-> | Huser]; [reflexivity |].
  rewrite (bool_decide_eq_false_2 _ Huser).
  destruct (decide (username = "admin")) as [-> | Hadmin]; [reflexivity |].
  rewrite (bool_decide_eq_false_2 _ Hadmin).
  unfold RoleRoutes.user_route.
  rewrite (resolve_unknown "user" username Hadmin Huser). reflexivity.
Qed.

(** X5: of all usernames only "admin" gets the admin data from [/admin/];
    the other user of the database, "user", is refused with status 403, and a
    name that is not in the database with status 400, before any role is
    looked at. *)
Theorem admin_route_only_for_admin (username : string) :
  (admin_route username
   = Return {[ "message" := VStr "Hello admin, you have access to admin data." ]}
   <-> username = "admin")
  /\ (admin_route username
      = Raise (HTTPException 403 "You do not have permission to access this resource")
      <-> username = "user")
  /\ (admin_route username = Raise (HTTPException 400 "Invalid credentials")
      <-> username <> "admin" /\ username <> "user").
Proof.
  rewrite admin_route_run.
  destruct (decide (username = "admin")) as [-> | Hadmin].
  - rewrite bool_decide_eq_true_2 by reflexivity.
    split; [| split]; split; try done. intros [? _]; done.
  - rewrite (bool_decide_eq_false_2 _ Hadmin).
    destruct (decide (username = "user")) as [-> | Huser].
    + rewrite bool_decide_eq_true_2 by reflexivity.
      split; [| split]; split; try done. intros [_ ?]; done.
    + rewrite (bool_decide_eq_false_2 _ Huser).
      split; [| split]; split; done.
Qed.

(** X6: roles are compared for equality, without any order between them:
    [/user/] serves "user" and refuses "admin" with status 403, so no username
    is served by both [/admin/] and [/user/]. *)
Theorem user_route_refuses_admin :
  user_route "user"
  = Return {[ "message" := VStr "Hello user, you have access to user data." ]}
  /\ user_route "admin"
     = Raise (HTTPException 403 "You do not have permission to access this resource")
  /\ forall username body body',
       admin_route username = Return body ->
       user_route username = Return body' -> False.
Proof.
  split; [reflexivity |]. split; [reflexivity |].
  intros username body body'. rewrite admin_route_run, user_route_run.
  destruct (decide (username = "admin")) as [-> | Hadmin].
  - rewrite (bool_decide_eq_false_2 ("admin" = "user")) by discriminate.
    rewrite (bool_decide_eq_true_2 ("admin" = "admin")) by reflexivity.
    discriminate.
  - rewrite (bool_decide_eq_false_2 _ Hadmin).
    destruct (bool_decide (username = "user")); discriminate.
Qed.

(** X7: with [http_exception_handler] installed every request to [/admin/]
    gets an answer and none raises: status 200 for "admin", and for the refused
    ones the status of the exception, 403 or 400, with its detail after
    "Oops! Error: " as the message. *)
Theorem admin_route_always_answers (username : string) :
  Middleware.answer (admin_route username)
  = Return
      (if bool_decide (username = "admin")
       then {| Middleware.status_code := 200;
               Middleware.content :=
                 {[ "message" := VStr "Hello admin, you have access to admin data." ]} |}
       else if bool_decide (username = "user")
            then {| Middleware.status_code := 403;
                    Middleware.content :=
                      {[ "message" :=
                           VStr "Oops! Error: You do not have permission to access this resource" ]} |}
            else {| Middleware.status_code := 400;
                    Middleware.content :=
                      {[ "message" := VStr "Oops! Error: Invalid credentials" ]} |}).
Proof.
  rewrite admin_route_run.
  destruct (bool_decide (username = "admin")); [reflexivity |].
  destruct (bool_decide (username = "user")); reflexivity.
Qed.

End RoleRoutesProperties.

(** An exception that is no [HTTPException] is not the handler's: a record
    without a username makes [read_admin_data] raise [KeyError], and the
    request has no answer. *)
Example key_error_is_not_handled :
  Middleware.answer
    (RoleRoutes.read_admin_data (fun _ => "") {[ "role" := VStr "admin" ]})
  = Raise (KeyError "username").
Proof. reflexivity. Qed.

(** ** Background tasks *)

Lemma string_app_assoc (s1 s2 s3 : string) :
  (s1 +:+ s2) +:+ s3 = s1 +:+ (s2 +:+ s3).
Proof.
  induction s1 as [| a s1 IH]; [reflexivity |].
  change (String a ((s1 +:+ s2) +:+ s3) = String a (s1 +:+ (s2 +:+ s3))).
  by rewrite IH.
Qed.

Lemma string_app_empty_r (s : string) : s +:+ "" = s.
Proof.
  induction s as [| a s IH]; [reflexivity |].
  change (String a (s +:+ "") = String a s). by rewrite IH.
Qed.

Lemma serve_all_cons (message : string) (rest : list string) (fs : Notifications.files) :
  Notifications.serve_all (message :: rest) fs
  = ({[ "message" := VStr "Notification sent" ]}
       :: (Notifications.serve_all rest (Notifications.write_log message fs)).1,
     (Notifications.serve_all rest (Notifications.write_log message fs)).2).
Proof.
  cbn [Notifications.serve_all].
  change (Notifications.serve message fs)
    with (({[ "message" := VStr "Notification sent" ]} : dict),
          Notifications.write_log message fs).
  cbv beta iota.
  by destruct (Notifications.serve_all rest (Notifications.write_log message fs)).
Qed.

Lemma write_log_text (message : string) (fs : Notifications.files) :
  log_text (Notifications.write_log message fs) = log_text fs +:+ message.
Proof. unfold log_text, Notifications.write_log. by rewrite lookup_insert_eq. Qed.

Lemma serve_all_keeps_log (messages : list string) (fs : Notifications.files) :
  is_Some (fs !! "log.txt") ->
  is_Some ((Notifications.serve_all messages fs).2 !! "log.txt").
Proof.
  revert fs. induction messages as [| message rest IH]; intros fs Hlog.
  - exact Hlog.
  - rewrite serve_all_cons. cbn [snd]. apply IH.
    unfold Notifications.write_log. rewrite lookup_insert_eq. eauto.
Qed.

(** X8: requests to [/send-notification/], served one after the other, all
    get the answer "Notification sent", and afterwards [log.txt] holds what it
    held before followed by the messages in the order of the requests, with
    nothing between them; the file exists once a notification was sent, and no
    other file is touched. *)
Theorem notifications_are_logged_in_order
    (messages : list string) (fs : Notifications.files) :
  (Notifications.serve_all messages fs).1
  = replicate (length messages) {[ "message" := VStr "Notification sent" ]}
  /\ log_text (Notifications.serve_all messages fs).2
     = log_text fs +:+ joined messages
  /\ (messages <> [] ->
      is_Some ((Notifications.serve_all messages fs).2 !! "log.txt"))
  /\ (forall path, path <> "log.txt" ->
        (Notifications.serve_all messages fs).2 !! path = fs !! path).
Proof.
  revert fs. induction messages as [| message rest IH]; intros fs.
  - cbn [Notifications.serve_all fst snd length replicate joined foldr].
    rewrite string_app_empty_r.
    split; [reflexivity |]. split; [reflexivity |].
    split; [intros Hne; contradiction | reflexivity].
  - rewrite serve_all_cons. cbn [fst snd].
    destruct (IH (Notifications.write_log message fs))
      as (Hresponses & Htext & _ & Hother).
    split; [| split; [| split]].
    + cbn [length replicate]. by rewrite Hresponses.
    + rewrite Htext, write_log_text. cbn [joined foldr].
      apply string_app_assoc.
    + intros _. apply serve_all_keeps_log.
      unfold Notifications.write_log. rewrite lookup_insert_eq. eauto.
    + intros path Hpath. rewrite (Hother path Hpath).
      unfold Notifications.write_log. by rewrite lookup_insert_ne.
Qed.

Example two_notifications :
  (Notifications.serve_all ["disk full"; "disk ok"] ∅).2
  = {[ "log.txt" := "disk fulldisk ok" ]}.
Proof. reflexivity. Qed.

(** ** The logging middleware *)

Lemma layered_S (n : nat) (call_next : Middleware.handler) :
  layered (S n) call_next = Middleware.log_requests (layered n call_next).
Proof. reflexivity. Qed.

(** X9: [log_requests] never changes what the application answers: under
    any number [n] of layers of it the request ends as it does without them,
    with the same response or the same exception.  The layers print [n] lines
    "Request URL: ..." before the application runs and, when it returned,
    [n] lines "Response Status Code: ..." after it; when it raised, nothing
    is printed after it. *)
Theorem log_requests_is_transparent
    (n : nat) (call_next : Middleware.handler)
    (request : Middleware.request) (out : list string) :
  let inner :=
    call_next request
      (out ++ replicate n ("Request URL: " +:+ Middleware.url request))%list in
  (layered n call_next request out).1 = inner.1
  /\ (layered n call_next request out).2
     = (inner.2
        ++ match inner.1 with
           | Return response =>
               replicate n ("Response Status Code: "
                            +:+ pretty (Middleware.status_code response))
           | Raise _ => []
           end)%list.
Proof.
  cbv zeta. revert out. induction n as [| n IH]; intros out.
  - change (layered 0 call_next) with call_next.
    cbn [replicate]. rewrite !app_nil_r.
    destruct (call_next request out) as [[response | e] out']; cbn [fst snd];
      by rewrite app_nil_r.
  - rewrite layered_S. unfold Middleware.log_requests.
    specialize (IH (out ++ ["Request URL: " +:+ Middleware.url request])%list).
    rewrite <- app_assoc in IH. cbn [app] in IH. rewrite <- replicate_S in IH.
    destruct IH as [Hresult Hout].
    destruct (layered n call_next request
                (out ++ ["Request URL: " +:+ Middleware.url request])%list)
      as [r out2].
    cbn [fst snd] in Hresult, Hout. subst r out2.
    destruct (call_next request
                (out ++ replicate (S n) ("Request URL: " +:+ Middleware.url request))%list)
      as [[response | e] out'].
    + cbn [fst snd]. split; [reflexivity |].
      rewrite <- app_assoc. by rewrite <- replicate_S_end.
    + cbn [fst snd]. split; reflexivity.
Qed.

(** ** The user route over the database session *)

Section UserRoutesProperties.
Variable connect_to_database : Dependency.IO nat.
Variable close_outcome : nat -> result exn unit.
Variable first_user : nat -> Z -> Dependency.IO (option dict).

(** The route [/users/{user_id}] with its [db=Depends(get_db)]. *)
Local Abbreviation users_route user_id :=
  (Dependency.Depends (Dependency.get_db connect_to_database close_outcome)
     (UserRoutes.read_user first_user user_id)).

(** X10: a request to [/users/{user_id}] that got a session closes it
    exactly once, after the query, also when no user is found; with a [close]
    that returns, the request then ends with the found row, or with the
    [HTTPException] 404 "User not found" when the query found none. *)
Theorem read_user_closes_its_session
    (user_id : Z) (l l1 : Dependency.log) (db : nat) :
  connect_to_database l = (Return db, l1) ->
  (users_route user_id l).2
  = ((first_user db user_id l1).2 ++ [Dependency.Closed db])%list
  /\ Dependency.close_calls db (users_route user_id l).2
     = S (Dependency.close_calls db (first_user db user_id l1).2)
  /\ (close_outcome db = Return tt ->
      (users_route user_id l).1
      = match (first_user db user_id l1).1 with
        | Return (Some user) => Return user
        | Return None => Raise (HTTPException 404 "User not found")
        | Raise e => Raise e
        end).
Proof.
  intros Hconnect.
  destruct (get_db_resumed connect_to_database close_outcome l l1 db Hconnect)
    as (gen & Hgen & Hdb & Hresume).
  assert (Hlog : (users_route user_id l).2
                 = ((first_user db user_id l1).2 ++ [Dependency.Closed db])%list).
  { unfold Dependency.Depends. rewrite Hgen, Hdb. unfold UserRoutes.read_user.
    destruct (first_user db user_id l1) as [[[user |] | e] l2];
      rewrite Hresume; reflexivity. }
  split; [exact Hlog |]. split.
  - rewrite Hlog. apply close_calls_after_close.
  - intros Hclose. unfold Dependency.Depends. rewrite Hgen, Hdb.
    unfold UserRoutes.read_user.
    destruct (first_user db user_id l1) as [[[user |] | e] l2];
      rewrite Hresume, Hclose; reflexivity.
Qed.

End UserRoutesProperties.

(** Session 7, a [close] that returns, and a table without the user 5. *)
Lemma read_user_closes_its_session_witness :
  (Dependency.Depends
     (Dependency.get_db (fun l => (Return 7%nat, (l ++ [Dependency.Connected 7])%list))
        (fun _ => Return tt))
     (UserRoutes.read_user (fun _ _ l => (Return None, l)) 5) []).1
  = Raise (HTTPException 404 "User not found").
Proof.
  apply (read_user_closes_its_session
           (fun l => (Return 7%nat, (l ++ [Dependency.Connected 7])%list))
           (fun _ => Return tt) (fun _ _ l => (Return None, l))
           5 [] [Dependency.Connected 7] 7%nat).
  - reflexivity.
  - reflexivity.
Defined.

(** ** The [try] examples *)

(** Unfolds an example down to the case analysis on what was typed or
    read. *)
Ltac unfold_try :=
  unfold TryExamples.division_example, TryExamples.positive_example,
    TryExamples.file_example, TryExamples.try_finally,
    TryExamples.try_except_else, TryExamples.with_open, TryExamples.read,
    TryExamples.input, TryExamples.to_int, TryExamples.bindR,
    TryExamples.print, TryExamples.ret, TryExamples.except,
    TryExamples.emit, TryExamples.raise.

(** Runs the case at hand: the clauses are tried in order. *)
Ltac finish_try :=
  cbn;
  repeat first [ rewrite bool_decide_eq_true_2 by reflexivity
               | rewrite bool_decide_eq_false_2 by discriminate ];
  unfold TryExamples.emit, TryExamples.raise; cbn;
  rewrite <- ?app_assoc; try reflexivity.

(** Counts an effect in an explicit trace. *)
Ltac count_effects :=
  unfold TryExamples.occurrences;
  repeat first [ rewrite filter_cons_True by reflexivity
               | rewrite filter_cons_False by (intros [= ?]; discriminate)
               | rewrite filter_cons_False by discriminate
               | rewrite filter_nil ];
  cbn [length].

Section TryExamplesProperties.
Variable int : string -> option Z.
Variable str_quotient : Z -> string.


Lemma positive_example_run (typed : option string) (t : TryExamples.trace) :
  TryExamples.positive_example int typed t
  = match typed with
    | Some line =>
        (Return tt,
         (t ++ [ TryExamples.Prompted "Enter a positive number: ";
                 TryExamples.Printed
                   (match int line with
                    | None => "Invalid input. Please enter a number."
                    | Some num =>
                        if 0 <? num then "Thank you! You entered: " +:+ pretty num
                        else "Number must be greater than zero."
                    end);
                 TryExamples.Printed "Execution complete." ])%list)
    | None =>
        (Raise TryExamples.EOFError,
         (t ++ [ TryExamples.Prompted "Enter a positive number: ";
                 TryExamples.Printed "Execution complete." ])%list)
    end.
Proof.
  unfold_try.
  destruct typed as [line |]; [| finish_try].
  destruct (int line) as [num |]; [destruct (0 <? num) |]; finish_try.
Qed.

(** X12: in the [else] and [finally] example "Execution complete." is the
    last line printed on every run, and is printed once: after the thanks,
    after either complaint, and also when the input has ended and [EOFError]
    leaves the statement.  The thanks are printed exactly for a line that is
    an integer greater than zero, and no line the user types makes the
    statement raise. *)
Theorem positive_example_always_completes
    (typed : option string) (t : TryExamples.trace) :
  list.last (TryExamples.positive_example int typed t).2
  = Some (TryExamples.Printed "Execution complete.")
  /\ TryExamples.occurrences (TryExamples.Printed "Execution complete.")
       (TryExamples.positive_example int typed t).2
     = S (TryExamples.occurrences (TryExamples.Printed "Execution complete.") t)
  /\ (forall line, typed = Some line ->
        (TryExamples.positive_example int typed t).1 = Return tt
        /\ forall num,
             (In (TryExamples.Printed ("Thank you! You entered: " +:+ pretty num))
                (drop (length t) (TryExamples.positive_example int typed t).2)
              <-> int line = Some num /\ 0 < num))
  /\ (typed = None ->
      (TryExamples.positive_example int typed t).1 = Raise TryExamples.EOFError).
Proof.
  rewrite positive_example_run.
  split; [| split; [| split]].
  - destruct typed; cbn [snd]; rewrite last_app; reflexivity.
  - unfold TryExamples.occurrences.
    destruct typed as [line |]; cbn [snd]; rewrite list.filter_app, List.length_app.
    + destruct (int line) as [num |]; [destruct (0 <? num) |];
        count_effects; lia.
    + count_effects. lia.
  - intros line ->. split; [reflexivity |]. intros num. cbn [snd].
    rewrite drop_app_length.
    destruct (int line) as [num' |] eqn:Hint.
    + destruct (Z.ltb_spec 0 num') as [Hpos | Hneg].
      * split.
        -- intros [H | [H | [H | []]]]; try discriminate.
           injection H as H. apply (inj (String.append _)) in H.
           apply (inj pretty) in H. subst num'. done.
        -- intros [[= ->] _]. right. left. reflexivity.
      * split.
        -- intros [H | [H | [H | []]]]; discriminate.
        -- intros [[= ->] Hpos]. lia.
    + split.
      * intros [H | [H | [H | []]]]; discriminate.
      * intros [[=] _].
  - intros ->. reflexivity.
Qed.

End TryExamplesProperties.



(** ** Logging in and using the token *)

Section JwtSessions.
Context `{jwt.Library}.

Lemma issued_claims_exp (utcnow : Z) (username : string) :
  ({[ "sub" := VStr username; "exp" := VDatetime (utcnow + 1800) ]} : dict) !! "exp"
  = Some (VDatetime (utcnow + 1800)).
Proof. rewrite lookup_insert_ne by discriminate. apply lookup_singleton_eq. Qed.

Lemma issued_claims_one_datetime (utcnow : Z) (username : string) (k : string) (t : Z) :
  ({[ "sub" := VStr username; "exp" := VDatetime (utcnow + 1800) ]} : dict) !! k
  = Some (VDatetime t) ->
  k = "exp".
Proof.
  destruct (decide (k = "exp")) as [-> | Hexp]; [done |].
  destruct (decide (k = "sub")) as [-> | Hsub].
  - rewrite lookup_insert_eq. discriminate.
  - rewrite lookup_insert_ne by congruence.
    rewrite lookup_singleton_ne by congruence. discriminate.
Qed.


(** X15: once the thirty minutes have passed the same token is refused:
    [read_protected] raises the [HTTPException] 401 "Token has expired".  The
    library is taken to raise [ExpiredSignatureError] for a token whose expiry
    time has passed. *)
Theorem issued_token_expires
    (Hlibrary : decode_expired)
    (utcnow now : Z) (username password : string) (h : JwtAuth.heap) :
  password_matches username password ->
  utcnow + 1800 < now ->
  exists access_token,
    (JwtAuth.login_for_access_token utcnow username password h).1
    = Return {[ "access_token" := VStr access_token; "token_type" := VStr "bearer" ]}
    /\ JwtAuth.read_protected now access_token
       = Raise (JwtAuth.Python (HTTPException 401 "Token has expired")).
Proof.
  intros Hmatch Hafter. apply password_matches_admin in Hmatch.
  exists (issued_token utcnow username). split.
  - rewrite login_run. by rewrite bool_decide_eq_true_2.
  - unfold issued_token.
    destruct (Hlibrary _ JwtAuth.SECRET_KEY "HS256" (utcnow + 1800) now
                (issued_claims_exp utcnow username)
                (issued_claims_one_datetime utcnow username) Hafter)
      as (e & Hdec & Hexpired).
    rewrite (read_protected_raised now _ e Hdec). by rewrite Hexpired.
Qed.

(** X16: [create_jwt_token] can be called again on the same [data]: the
    second token is made from [data] as the caller wrote it, with the second
    expiry time and nothing of the first call, and [data] is still what it
    was after both calls. *)
Theorem create_jwt_token_twice
    (utcnow1 delta1 utcnow2 delta2 : Z) (data : positive)
    (h : JwtAuth.heap) (d : dict) :
  h !! data = Some d ->
  (create_two_tokens utcnow1 delta1 utcnow2 delta2 data h).1
  = Return (jwt.encode (signed_claims utcnow1 delta1 d) JwtAuth.SECRET_KEY "HS256",
            jwt.encode (signed_claims utcnow2 delta2 d) JwtAuth.SECRET_KEY "HS256")
  /\ (create_two_tokens utcnow1 delta1 utcnow2 delta2 data h).2 !! data = Some d.
Proof.
  intros Hdata.
  set (h1 := <[ fresh (dom h) := signed_claims utcnow1 delta1 d ]> h).
  assert (Hdata1 : h1 !! data = Some d).
  { unfold h1. rewrite lookup_insert_ne; [exact Hdata |].
    apply fresh_reference_differs. rewrite Hdata. eauto. }
  assert (Hrun :
    create_two_tokens utcnow1 delta1 utcnow2 delta2 data h
    = (Return (jwt.encode (signed_claims utcnow1 delta1 d) JwtAuth.SECRET_KEY "HS256",
               jwt.encode (signed_claims utcnow2 delta2 d) JwtAuth.SECRET_KEY "HS256"),
       <[ fresh (dom h1) := signed_claims utcnow2 delta2 d ]> h1)).
  { unfold create_two_tokens. unfold JwtAuth.bindM at 1.
    rewrite (create_jwt_token_run utcnow1 delta1 data h d Hdata). fold h1.
    unfold JwtAuth.bindM at 1.
    rewrite (create_jwt_token_run utcnow2 delta2 data h1 d Hdata1).
    reflexivity. }
  rewrite Hrun. cbn [fst snd]. split; [reflexivity |].
  rewrite lookup_insert_ne; [exact Hdata1 |].
  apply fresh_reference_differs. rewrite Hdata1. eauto.
Qed.

End JwtSessions.

Lemma plain_decode_expired : @decode_expired PlainJwt.library.
Proof.
  intros claims key algorithm expire now Hexp _ Hafter.
  exists PlainJwt.Expired. split; [| reflexivity].
  cbn [jwt.decode jwt.encode PlainJwt.library].
  unfold PlainJwt.plain_decode. rewrite plain_parse_encode.
  rewrite bool_decide_eq_true_2 by reflexivity.
  rewrite bool_decide_eq_true_2 by (apply list_elem_of_singleton; reflexivity).
  cbn [andb]. rewrite lookup_fmap, Hexp.
  cbn [fmap option_fmap option_map jwt.json_of_value].
  destruct (Z.leb_spec expire now) as [_ | Hlt]; [reflexivity | lia].
Qed.

Lemma password_matches_admin_secret : password_matches "admin" "secret".
Proof. eexists. split; reflexivity. Qed.


Lemma issued_token_expires_witness :
  exists access_token,
    (JwtAuth.login_for_access_token 0 "admin" "secret" ∅).1
    = Return {[ "access_token" := VStr access_token; "token_type" := VStr "bearer" ]}
    /\ JwtAuth.read_protected 1801 access_token
       = Raise (JwtAuth.Python (HTTPException 401 "Token has expired")).
Proof.
  apply (issued_token_expires plain_decode_expired 0 1801 "admin" "secret" ∅);
    [exact password_matches_admin_secret | lia].
Defined.

Lemma create_jwt_token_twice_witness :
  (create_two_tokens 0 1800 60 1800 1
     ({[ 1%positive := {[ "sub" := VStr "admin" ]} ]} : JwtAuth.heap)).2 !! 1%positive
  = Some ({[ "sub" := VStr "admin" ]} : dict).
Proof.
  apply (create_jwt_token_twice 0 1800 60 1800 1%positive
           {[ 1%positive := {[ "sub" := VStr "admin" ]} ]} {[ "sub" := VStr "admin" ]}).
  reflexivity.
Defined.

(** ** Edge cases of the claims' snippets *)

(** X20: when the session cannot be opened, [get_db] yields nothing: the
    path operation is not run, [close] is not called, and the exception of
    [connect_to_database] ends the request. *)
Theorem failed_connect_skips_the_operation
    {A : Type} (connect_to_database : Dependency.IO nat)
    (close_outcome : nat -> result exn unit)
    (operation : nat -> Dependency.IO A)
    (l l1 : Dependency.log) (e : exn) :
  connect_to_database l = (Raise e, l1) ->
  Dependency.Depends (Dependency.get_db connect_to_database close_outcome) operation l
  = (Raise e, l1).
Proof.
  intros Hconnect. unfold Dependency.Depends.
  by rewrite (get_db_connect_fails connect_to_database close_outcome l l1 e Hconnect).
Qed.

Lemma failed_connect_skips_the_operation_witness :
  Dependency.Depends
    (Dependency.get_db (fun l => (Raise (HTTPException 503 "no database"), l))
       (fun _ => Return tt))
    (fun (db : nat) l => (Return db, (l ++ [Dependency.Connected db])%list)) []
  = (Raise (HTTPException 503 "no database"), []).
Proof.
  apply (failed_connect_skips_the_operation
           (fun l => (Raise (HTTPException 503 "no database"), l))
           (fun _ => Return tt)
           (fun (db : nat) l => (Return db, (l ++ [Dependency.Connected db])%list))
           [] [] (HTTPException 503 "no database")).
  reflexivity.
Defined.

Lemma retry_loop_end_of_input_witness :
  ErrorHandling.retry_loop ErrorHandling.int_decimal typed_then_closed 2
    ErrorHandling.start
  = Some (Raise EOFError,
          {| ErrorHandling.consumed := 1;
             ErrorHandling.written := ErrorHandling.transcript 1 |}).
Proof.
  apply (retry_loop_end_of_input ErrorHandling.int_decimal typed_then_closed 1 2).
  - reflexivity.
  - intros i Hi. destruct i as [| i]; [by exists "abc" | lia].
  - lia.
Defined.


Lemma check_role_without_role_witness :
  RoleAuth.check_role "admin"
    {[ "username" := VStr "admin"; "password" := VStr "secret" ]}
  = Raise (KeyError "role").
Proof.
  apply (check_role_without_role "admin"
           {[ "username" := VStr "admin"; "password" := VStr "secret" ]}).
  reflexivity.
Defined.
